(** * Kite: peer coordination and call routing (kite/main.go)

    A shallow embedding of the coordination state machine ([handle], [Pong],
    [AddKite], [RemoveKite], [InitializeKite], [RegisterToKontrol]), of the
    call router ([RemoteKites], [roundRobin], [getRemoteKite], [CallSync],
    [Call]) and of the dial handshake ([dialClient]).

    Conventions.
    - Go's [int] is a 64-bit integer: a [Z] with the wrap-around written out.
    - A Go [(value, error)] result is a pair of options; [None] is [nil].
    - A run-time panic is an outcome of its own ([Panicked]).
    - Everything the node does to the outside (the Messenger, the network,
      the cache pool, the rpc client) is recorded in a trace, and what the
      outside answers is a function of the trace so far ([World]).
    - The package-level registries [kites] and [balance] are fields of the
      state next to the node's own struct.
    - Registry entries are [*models.Kite] pointers in the source, keyed by
      their address; the embedding stores the record under its address, so
      an in-place change of an entry followed by [kites.Add] of the same
      pointer is the insertion of the changed record under the same key.
    - Log and debug output is not part of the state. *)

From Stdlib Require Import ZArith Lia.
From stdpp Require Import gmap strings list fin_maps.

Local Open Scope string_scope.
Local Open Scope list_scope.
Local Open Scope Z_scope.

(** ** Go values *)

Definition bytes := string.

(** Go error values built or received by this file. *)
Inductive error :=
| errors_New (msg : string)
| fmt_Errorf (msg : string)
| net_OpError (Op Net : string) (Err : error)
| foreign_error (msg : string).

Fixpoint Error (e : error) : string :=
  match e with
  | errors_New m => m
  | fmt_Errorf m => m
  | net_OpError op net err => op +:+ " " +:+ net +:+ ": " +:+ Error err
  | foreign_error m => m
  end.

(** [int] on a 64-bit platform. *)
Definition wrap_int (z : Z) : Z := (z + 2 ^ 63) mod 2 ^ 64 - 2 ^ 63.

(** The float64 values [roundRobin] can meet: integer-valued ones and NaN. *)
Inductive float64 :=
| Fint (z : Z)
| NaN.

(** [float64(x)] for an [int] x: exact up to 2^53, beyond that rounded to 53
    significant bits, ties to even. *)
Definition float64_of_int (x : Z) : float64 :=
  let a := Z.abs x in
  if a <=? 2 ^ 53 then Fint x
  else
    let e := Z.log2 a - 52 in
    let q := a / 2 ^ e in
    let r := a mod 2 ^ e in
    let h := 2 ^ (e - 1) in
    let q' := if (h <? r) || ((r =? h) && Z.odd q) then q + 1 else q in
    Fint (Z.sgn x * (q' * 2 ^ e)).

(** [math.Mod(x, y)]: the remainder has the sign of x; NaN when y is 0. *)
Definition math_Mod (x y : float64) : float64 :=
  match x, y with
  | Fint a, Fint b => if b =? 0 then NaN else Fint (Z.rem a b)
  | _, _ => NaN
  end.

(** [int(f)]; out of range and NaN give the smallest int (amd64). *)
Definition int_of_float64 (f : float64) : Z :=
  match f with
  | Fint z => if (- 2 ^ 63 <=? z) && (z <? 2 ^ 63) then z else - 2 ^ 63
  | NaN => - 2 ^ 63
  end.

(** The largest capacity [make] accepts for a slice of pointers: the
    allocation limit of the runtime (2^48 bytes) over the pointer size. *)
Definition maxSliceCap : Z := 2 ^ 45.

(** ** Connections and rpc clients *)

Record Conn := { conn_id : nat; conn_remote : string }.

Inductive ClientCodec :=
| NewKiteClientCodec (conn : Conn).

Inductive rpc_Client :=
| rpc_NewClientWithCodec (c : ClientCodec).

Record http_Response := { Status : string }.

(** ** package protocol *)

Module protocol.

(** Modelled from the spec: the action and result constants of package
    protocol, which is not part of the sources at hand. *)
Definition AddKite : string := "addKite".
Definition RemoveKite : string := "removeKite".
Definition UpdateKite : string := "updateKite".
Definition AllowKite : string := "allow".
Definition PermitKite : string := "deny".

(** Modelled from the spec: the message structs of package protocol, with
    the fields the node reads and writes. *)
Record Base := {
  Username : string;
  Kitename : string;
  Version : string;
  Uuid : string;
  PublicKey : string;
  Hostname : string;
  Addr : string;
  LocalIP : string;
  PublicIP : string;
  Port : string;
  Token : string;
}.

Record Request := {
  Request_Base : Base;
  RemoteKite : string;
  Action : string;
}.

Record PubResponse := {
  PubResponse_Base : Base;
  PubResponse_Action : string;
}.

Record RegisterResponse := {
  Result : string;
}.

Record KiteRequest := {
  KiteRequest_Base : Base;
  Args : string;
  Origin : string;
}.

Definition ORIGIN_GOB : string := "gob".

End protocol.

(** ** package models *)

Module models.

(** Modelled from the spec: a remote peer, with the fields of
    [protocol.Base] and the lazily dialled connection. *)
Record Kite := {
  Base : protocol.Base;
  Client : option rpc_Client;
}.

Definition Kitename (r : Kite) : string := protocol.Kitename (Base r).
Definition Addr (r : Kite) : string := protocol.Addr (Base r).
Definition Uuid (r : Kite) : string := protocol.Uuid (Base r).
Definition Token (r : Kite) : string := protocol.Token (Base r).

Definition set_Client (c : option rpc_Client) (r : Kite) : Kite :=
  {| Base := Base r; Client := c |}.

End models.

(** ** package peers *)

Module peers.

(** Modelled from the spec: the peer registry of package peers, a store
    keyed by network address. [Add] inserts or replaces the entry of the
    peer's address, [Get] looks an address up, [Remove] deletes by unique
    id, [List] is a snapshot of all peers and [Size] their number. *)
Definition New : gmap string models.Kite := ∅.

Definition Add (kite : models.Kite) (m : gmap string models.Kite)
  : gmap string models.Kite :=
  <[models.Addr kite := kite]> m.


Definition Remove (id : string) (m : gmap string models.Kite)
  : gmap string models.Kite :=
  filter (λ p, models.Uuid p.2 ≠ id) m.

Definition List (m : gmap string models.Kite) : list models.Kite :=
  (map_to_list m).*2.

Definition Size (m : gmap string models.Kite) : Z := Z.of_nat (size m).

End peers.

(** ** package balancer *)

Module balancer.

(** Modelled from the spec: the balancer of package balancer, the last
    index used per group; an unseen group reads as 0. *)
Definition New : gmap string Z := ∅.

Definition GetIndex (group : string) (b : gmap string Z) : Z :=
  default 0 (b !! group).

Definition AddOrUpdateIndex (group : string) (index : Z) (b : gmap string Z)
  : gmap string Z :=
  <[group := index]> b.

End balancer.

(** ** The node and its surroundings *)

(** The fields of the [Kite] struct that the modelled methods use. The two
    [sync.Once] fields hold whether their body has run. *)
Record Kite := {
  Username : string;
  Kitename : string;
  Uuid : string;
  Addr : string;
  PublicKey : string;
  Hostname : string;
  LocalIP : string;
  PublicIP : string;
  Port : string;
  Version : string;
  Registered : bool;
  KontrolEnabled : bool;
  OnceServer : bool;
  OnceCall : bool;
}.

(** How the wait after [Client.Go] ends: the call's [Done] channel delivers
    first, with the call's error and the reply written to [result], or the
    ten-second timer does, with the call still pending. *)
Inductive rpc_race :=
| DoneFirst (err : option error) (reply : string)
| TimerFirst.

Inductive event :=
| EvSend (msg resp : bytes)
| EvSetPeers (addrs : list string)
| EvServe (addr : string)
| EvDial (addr : string) (res : Conn + error)
| EvWrite (conn : Conn) (data : string)
| EvReadResponse (conn : Conn) (res : http_Response + error)
| EvClose (conn : Conn)
| EvCall (client : rpc_Client) (rpcFunc args : string) (res : string + error)
| EvGo (client : rpc_Client) (rpcFunc : string) (a : protocol.KiteRequest)
       (race : rpc_race).

(** What the outside answers, given everything that happened before. *)
Record World := {
  Messenger_Send : list event → bytes → bytes;
  net_Dial : list event → string → Conn + error;
  http_ReadResponse : list event → Conn → http_Response + error;
  Client_Call : list event → rpc_Client → string → string → string + error;
  json_Marshal : protocol.Request → bytes * option error;
  json_Unmarshal_PubResponse : bytes → protocol.PubResponse + error;
  json_Unmarshal_RegisterResponse : bytes → protocol.RegisterResponse + error;
}.

Record State := {
  self : Kite;
  kites : gmap string models.Kite;
  balance : gmap string Z;
  trace : list event;
}.

Definition set_self (k : Kite) (s : State) : State :=
  {| self := k; kites := kites s; balance := balance s; trace := trace s |}.

Definition set_kites (m : gmap string models.Kite) (s : State) : State :=
  {| self := self s; kites := m; balance := balance s; trace := trace s |}.

Definition set_balance (b : gmap string Z) (s : State) : State :=
  {| self := self s; kites := kites s; balance := b; trace := trace s |}.

Definition record (e : event) (s : State) : State :=
  {| self := self s; kites := kites s; balance := balance s;
     trace := trace s ++ [e] |}.

Definition set_Registered (b : bool) (k : Kite) : Kite :=
  {| Username := Username k; Kitename := Kitename k; Uuid := Uuid k;
     Addr := Addr k; PublicKey := PublicKey k; Hostname := Hostname k;
     LocalIP := LocalIP k; PublicIP := PublicIP k; Port := Port k;
     Version := Version k; Registered := b;
     KontrolEnabled := KontrolEnabled k; OnceServer := OnceServer k;
     OnceCall := OnceCall k |}.

Definition set_OnceServer (b : bool) (k : Kite) : Kite :=
  {| Username := Username k; Kitename := Kitename k; Uuid := Uuid k;
     Addr := Addr k; PublicKey := PublicKey k; Hostname := Hostname k;
     LocalIP := LocalIP k; PublicIP := PublicIP k; Port := Port k;
     Version := Version k; Registered := Registered k;
     KontrolEnabled := KontrolEnabled k; OnceServer := b;
     OnceCall := OnceCall k |}.

Definition set_OnceCall (b : bool) (k : Kite) : Kite :=
  {| Username := Username k; Kitename := Kitename k; Uuid := Uuid k;
     Addr := Addr k; PublicKey := PublicKey k; Hostname := Hostname k;
     LocalIP := LocalIP k; PublicIP := PublicIP k; Port := Port k;
     Version := Version k; Registered := Registered k;
     KontrolEnabled := KontrolEnabled k; OnceServer := OnceServer k;
     OnceCall := b |}.

(** ** Computations that may panic *)

Inductive outcome (A : Type) :=
| Done (a : A)
| Panicked (why : string).
Arguments Done {A} a.
Arguments Panicked {A} why.

Definition M (A : Type) : Type := State → outcome (A * State).

Definition ret {A} (a : A) : M A := λ s, Done (a, s).

Definition bind {A B} (c : M A) (f : A → M B) : M B :=
  λ s, match c s with
       | Done (a, s') => f a s'
       | Panicked why => Panicked why
       end.

Definition panic {A} (why : string) : M A := λ _, Panicked why.

Definition get : M State := λ s, Done (s, s).

Definition modify (f : State → State) : M unit := λ s, Done (tt, f s).

Notation "x <- c1 ;; c2" := (bind c1 (λ x, c2))
  (at level 100, c1 at next level, right associativity).
Notation "c1 ;;; c2" := (bind c1 (λ _, c2))
  (at level 100, right associativity).

(** [make([]*models.Kite, 0, cap)] with a capacity computed at run time. *)
Definition make_slice (cap : Z) : M (list models.Kite) :=
  if (cap <? 0) || (maxSliceCap <? cap)
  then panic "makeslice: cap out of range"
  else ret [].

(** [s[n]] with its bounds check. *)
Definition slice_index (l : list models.Kite) (n : Z) : M models.Kite :=
  if n <? 0 then panic "index out of range"
  else match l !! Z.to_nat n with
       | Some r => ret r
       | None => panic "index out of range"
       end.

(** ** The call router: resolution *)

(** The loop of [RemoteKites]: append the entries of the requested name. *)
Fixpoint RemoteKites_loop (kite : string) (l acc : list models.Kite)
  : list models.Kite :=
  match l with
  | [] => acc
  | r :: l' =>
      if String.eqb (models.Kitename r) kite
      then RemoteKites_loop kite l' (acc ++ [r])
      else RemoteKites_loop kite l' acc
  end.

Definition RemoteKites (kite : string) : M (list models.Kite) :=
  s <- get ;;
  let l := peers.List (kites s) in
  remoteKites <- make_slice (Z.of_nat (length l) - 1) ;;
  ret (RemoteKites_loop kite l remoteKites).

Definition roundRobin (kite : string) : M (option models.Kite * option error) :=
  remoteKites <- RemoteKites kite ;;
  let lenOfKites := Z.of_nat (length remoteKites) in
  if lenOfKites =? 0
  then ret (None, Some (fmt_Errorf ("kite " +:+ kite +:+ " does not exist")))
  else
    s <- get ;;
    let index := balancer.GetIndex kite (balance s) in
    let N := float64_of_int lenOfKites in
    let n := int_of_float64 (math_Mod (float64_of_int (wrap_int (index + 1))) N) in
    modify (λ s, set_balance (balancer.AddOrUpdateIndex kite n (balance s)) s) ;;;
    r <- slice_index remoteKites n ;;
    ret (Some r, None).

(** ** The node's methods *)

Definition LF : string := String (Ascii.ascii_of_nat 10) "".

Definition rpc_DefaultRPCPath : string := "/_goRPC_".

(** Can connect to RPC service using HTTP CONNECT to rpcPath. *)
Definition connected : string := "200 Connected to Go RPC".

Section Node.

Variable W : World.

(** [k.Messenger.Send(msg)] *)
Definition Send (msg : bytes) : M bytes :=
  s <- get ;;
  let resp := Messenger_Send W (trace s) msg in
  modify (record (EvSend msg resp)) ;;;
  ret resp.

(** *** RPC: the dial handshake *)

Definition dialClient (kite : models.Kite)
  : M (option rpc_Client * option error) :=
  s <- get ;;
  let dialed := net_Dial W (trace s) (models.Addr kite) in
  modify (record (EvDial (models.Addr kite) dialed)) ;;;
  match dialed with
  | inr err => ret (None, Some err)
  | inl conn =>
      modify (record (EvWrite conn
        ("CONNECT " +:+ rpc_DefaultRPCPath +:+ " HTTP/1.0" +:+ LF +:+ LF))) ;;;
      s <- get ;;
      let read := http_ReadResponse W (trace s) conn in
      modify (record (EvReadResponse conn read)) ;;;
      let resp := match read with inl resp => Some resp | inr _ => None end in
      let err := match read with inl _ => None | inr err => Some err end in
      match err, resp with
      | None, Some resp =>
          if String.eqb (Status resp) connected
          then ret (Some (rpc_NewClientWithCodec (NewKiteClientCodec conn)), None)
          else
            let err := errors_New ("unexpected HTTP response: " +:+ Status resp) in
            modify (record (EvClose conn)) ;;;
            ret (None, Some (net_OpError "dial-http"
                               ("tcp " +:+ models.Addr kite) err))
      | None, None => panic "nil pointer dereference"
      | Some err, _ =>
          modify (record (EvClose conn)) ;;;
          ret (None, Some (net_OpError "dial-http"
                             ("tcp " +:+ models.Addr kite) err))
      end
  end.

(** *** The call router *)

Definition getRemoteKite (kite : string)
  : M (option models.Kite * option error) :=
  res <- roundRobin kite ;;
  let '(r, err) := res in
  match err with
  | Some err => ret (None, Some err)
  | None =>
      match r with
      | None => panic "nil pointer dereference"
      | Some r =>
          match models.Client r with
          | None =>
              res <- dialClient r ;;
              let '(client, err) := res in
              let r := models.set_Client client r in
              match err with
              | Some err => ret (None, Some err)
              | None =>
                  modify (λ s, set_kites (peers.Add r (kites s)) s) ;;;
                  ret (Some r, None)
              end
          | Some _ => ret (Some r, None)
          end
      end
  end.

(** [CallSync] hands back what the call wrote to [result] together with
    its error. *)
Definition CallSync (kite method args : string)
  : M (option string * option error) :=
  res <- getRemoteKite kite ;;
  let '(remoteKite, err) := res in
  match err with
  | Some err => ret (None, Some err)
  | None =>
      match remoteKite ≫= models.Client with
      | None => panic "nil pointer dereference"
      | Some client =>
          let rpcFunc := kite +:+ "." +:+ method in
          s <- get ;;
          let res := Client_Call W (trace s) client rpcFunc args in
          modify (record (EvCall client rpcFunc args res)) ;;;
          match res with
          | inr err =>
              ret (None, Some (fmt_Errorf
                ("[" +:+ kite +:+ "] call error: " +:+ Error err)))
          | inl reply => ret (Some reply, None)
          end
      end
  end.

(** *** The coordination state machine *)

Definition pong_request (k : Kite) : protocol.Request :=
  {| protocol.Request_Base :=
       {| protocol.Username := ""; protocol.Kitename := Kitename k;
          protocol.Version := ""; protocol.Uuid := Uuid k;
          protocol.PublicKey := ""; protocol.Hostname := "";
          protocol.Addr := ""; protocol.LocalIP := "";
          protocol.PublicIP := ""; protocol.Port := "";
          protocol.Token := "" |};
     protocol.RemoteKite := "";
     protocol.Action := "pong" |}.

Definition Pong : M unit :=
  s <- get ;;
  let m := pong_request (self s) in
  let msg := (json_Marshal W m).1 in
  resp <- Send msg ;;
  if String.eqb resp "UPDATE"
  then modify (λ s, set_self (set_Registered false (self s)) s)
  else ret tt.

Definition PeersAddr (s : State) : list string :=
  models.Addr <$> peers.List (kites s).

(** [k.Pool.Set(peers...)]: a call into the cache pool. *)
Definition SetPeers (addrs : list string) : M unit :=
  modify (record (EvSetPeers addrs)).

Definition AddKite (r : protocol.PubResponse) : M unit :=
  s <- get ;;
  if negb (Registered (self s)) then ret tt
  else
    let b := protocol.PubResponse_Base r in
    let kite :=
      {| models.Base :=
           {| protocol.Username := protocol.Username b;
              protocol.Kitename := protocol.Kitename b;
              protocol.Version := protocol.Version b;
              protocol.Uuid := protocol.Uuid b;
              protocol.PublicKey := "";
              protocol.Hostname := protocol.Hostname b;
              protocol.Addr := protocol.Addr b;
              protocol.LocalIP := ""; protocol.PublicIP := "";
              protocol.Port := ""; protocol.Token := "" |};
         models.Client := None |} in
    modify (λ s, set_kites (peers.Add kite (kites s)) s) ;;;
    s <- get ;;
    SetPeers (PeersAddr s).

Definition RemoveKite (r : protocol.PubResponse) : M unit :=
  s <- get ;;
  if negb (Registered (self s)) then ret tt
  else
    modify (λ s, set_kites
      (peers.Remove (protocol.Uuid (protocol.PubResponse_Base r)) (kites s)) s).

Definition register_request (k : Kite) : protocol.Request :=
  {| protocol.Request_Base :=
       {| protocol.Username := Username k; protocol.Kitename := Kitename k;
          protocol.Version := Version k; protocol.Uuid := Uuid k;
          protocol.PublicKey := PublicKey k; protocol.Hostname := Hostname k;
          protocol.Addr := Addr k; protocol.LocalIP := LocalIP k;
          protocol.PublicIP := PublicIP k; protocol.Port := Port k;
          protocol.Token := "" |};
     protocol.RemoteKite := "";
     protocol.Action := "register" |}.

Definition RegisterToKontrol : M (option error) :=
  s <- get ;;
  let m := register_request (self s) in
  let '(msg, err) := json_Marshal W m in
  match err with
  | Some err => ret (Some err)
  | None =>
      result <- Send msg ;;
      match json_Unmarshal_RegisterResponse W result with
      | inr err => ret (Some err)
      | inl resp =>
          if String.eqb (protocol.Result resp) protocol.AllowKite
          then ret None
          else if String.eqb (protocol.Result resp) protocol.PermitKite
          then ret (Some (errors_New "no permission to run"))
          else ret (Some (errors_New "got a nonstandard response"))
      end
  end.

(** [go k.OnceServer.Do(onceBody)]: the first call starts the server on the
    node's address; the server's own work is outside this file. *)
Definition OnceServer_Do : M unit :=
  s <- get ;;
  if OnceServer (self s) then ret tt
  else
    modify (λ s, set_self (set_OnceServer true (self s)) s) ;;;
    modify (record (EvServe (Addr (self s)))).

Definition InitializeKite : M unit :=
  s <- get ;;
  if Registered (self s) then ret tt
  else
    err <- RegisterToKontrol ;;
    match err with
    | Some _ => ret tt
    | None =>
        OnceServer_Do ;;;
        modify (λ s, set_self (set_Registered true (self s)) s)
    end.

Definition handle (msg : bytes) : M unit :=
  match json_Unmarshal_PubResponse W msg with
  | inr _ => ret tt
  | inl r =>
      Pong ;;;
      let action := protocol.PubResponse_Action r in
      if String.eqb action protocol.AddKite then AddKite r
      else if String.eqb action protocol.RemoveKite then RemoveKite r
      else if String.eqb action protocol.UpdateKite
      then modify (λ s, set_self (set_Registered false (self s)) s)
      else if String.eqb action "ping" then InitializeKite
      else ret tt
  end.

End Node.

(** ** The asynchronous call

    [Call] is a loop around a [select] over the ticker's channel and the two
    one-slot channels [runCall] and [resetOnce]. One turn of the loop is one
    step; which ready case the [select] takes, when a tick is delivered and
    how the wait for the reply ends are chosen from outside. *)

Inductive status :=
| Running
| Returned
| Blocked
| Crashed (why : string).

Record Frame := {
  ticker_C : bool;
  ticker_stopped : bool;
  runCall : bool;
  resetOnce : bool;
  remoteKite : option models.Kite;
  callbacks : list (option error * string);
  st : status;
}.

Definition Call_start : Frame :=
  {| ticker_C := false; ticker_stopped := false; runCall := false;
     resetOnce := false; remoteKite := None; callbacks := []; st := Running |}.

Inductive choice :=
| Tick
| case_ticker (late : bool)
| case_runCall (race : rpc_race)
| case_resetOnce.

Section AsyncCall.

Variable W : World.

Definition getKites_request (k : Kite) (kite : string) : protocol.Request :=
  {| protocol.Request_Base :=
       {| protocol.Username := Username k; protocol.Kitename := Kitename k;
          protocol.Version := Version k; protocol.Uuid := Uuid k;
          protocol.PublicKey := ""; protocol.Hostname := Hostname k;
          protocol.Addr := Addr k; protocol.LocalIP := "";
          protocol.PublicIP := ""; protocol.Port := "";
          protocol.Token := "" |};
     protocol.RemoteKite := kite;
     protocol.Action := "getKites" |}.

Definition call_request (k : Kite) (r : models.Kite) (args : string)
  : protocol.KiteRequest :=
  {| protocol.KiteRequest_Base :=
       {| protocol.Username := Username k; protocol.Kitename := Kitename k;
          protocol.Version := Version k; protocol.Uuid := Uuid k;
          protocol.PublicKey := ""; protocol.Hostname := Hostname k;
          protocol.Addr := ""; protocol.LocalIP := "";
          protocol.PublicIP := ""; protocol.Port := "";
          protocol.Token := models.Token r |};
     protocol.Args := args;
     protocol.Origin := protocol.ORIGIN_GOB |}.

(** [k.OnceCall.Do(onceBody)] with the body sending the discovery request. *)
Definition OnceCall_Do (msg : bytes) (s : State) : State :=
  if OnceCall (self s) then s
  else
    let resp := Messenger_Send W (trace s) msg in
    set_self (set_OnceCall true (self s)) (record (EvSend msg resp) s).

(** The body of [case <-ticker.C]. [late] tells whether the ticker put
    another tick in its channel while the body ran, before [ticker.Stop]. *)
Definition Call_ticker (kite : string) (late : bool) (f : Frame) (s : State)
  : Frame * State :=
  match getRemoteKite W kite s with
  | Panicked why =>
      ({| ticker_C := late; ticker_stopped := ticker_stopped f;
          runCall := runCall f; resetOnce := resetOnce f;
          remoteKite := remoteKite f; callbacks := callbacks f;
          st := Crashed why |}, s)
  | Done ((r, Some _), s1) =>
      let f1 := {| ticker_C := late; ticker_stopped := ticker_stopped f;
                   runCall := runCall f; resetOnce := resetOnce f;
                   remoteKite := r; callbacks := callbacks f;
                   st := Running |} in
      let m := getKites_request (self s1) kite in
      match json_Marshal W m with
      | (_, Some _) => (f1, s1)
      | (msg, None) => (f1, OnceCall_Do msg s1)
      end
  | Done ((r, None), s1) =>
      if runCall f
      then ({| ticker_C := late; ticker_stopped := true;
               runCall := true; resetOnce := resetOnce f;
               remoteKite := r; callbacks := callbacks f;
               st := Blocked |}, s1)
      else if resetOnce f
      then ({| ticker_C := late; ticker_stopped := true;
               runCall := true; resetOnce := true;
               remoteKite := r; callbacks := callbacks f;
               st := Blocked |}, s1)
      else ({| ticker_C := late; ticker_stopped := true;
               runCall := true; resetOnce := true;
               remoteKite := r; callbacks := callbacks f;
               st := Running |}, s1)
  end.

(** The body of [case <-runCall]. A call that is still pending when the
    timer fires has no error yet and has written nothing to [result]. *)
Definition Call_runCall (kite method args : string) (race : rpc_race)
    (f : Frame) (s : State) : Frame * State :=
  let rpcFunc := kite +:+ "." +:+ method in
  let crash why :=
    ({| ticker_C := ticker_C f; ticker_stopped := ticker_stopped f;
        runCall := false; resetOnce := resetOnce f;
        remoteKite := remoteKite f; callbacks := callbacks f;
        st := Crashed why |}, s) in
  match remoteKite f with
  | None => crash "nil pointer dereference"
  | Some r =>
      let a := call_request (self s) r args in
      match models.Client r with
      | None => crash "nil pointer dereference"
      | Some client =>
          let d_Error := match race with
                         | DoneFirst err _ => err
                         | TimerFirst => None
                         end in
          let result := match race with
                        | DoneFirst _ reply => reply
                        | TimerFirst => ""
                        end in
          ({| ticker_C := ticker_C f; ticker_stopped := ticker_stopped f;
              runCall := false; resetOnce := resetOnce f;
              remoteKite := remoteKite f;
              callbacks := callbacks f ++ [(d_Error, result)];
              st := Returned |},
           record (EvGo client rpcFunc a race) s)
      end
  end.

(** One turn of the loop; [None] when the chosen case is not ready or the
    call is over. *)
Definition Call_step (kite method args : string) (c : choice)
    (fs : Frame * State) : option (Frame * State) :=
  let '(f, s) := fs in
  match st f with
  | Running =>
      match c with
      | Tick =>
          if ticker_stopped f then None
          else Some ({| ticker_C := true; ticker_stopped := false;
                        runCall := runCall f; resetOnce := resetOnce f;
                        remoteKite := remoteKite f;
                        callbacks := callbacks f; st := Running |}, s)
      | case_ticker late =>
          if ticker_C f
          then Some (Call_ticker kite (late && negb (ticker_stopped f)) f s)
          else None
      | case_runCall race =>
          if runCall f then Some (Call_runCall kite method args race f s)
          else None
      | case_resetOnce =>
          if resetOnce f
          then Some ({| ticker_C := ticker_C f;
                        ticker_stopped := ticker_stopped f;
                        runCall := runCall f; resetOnce := false;
                        remoteKite := remoteKite f;
                        callbacks := callbacks f; st := Running |},
                     set_self (set_OnceCall false (self s)) s)
          else None
      end
  | _ => None
  end.

(** A schedule of choices, run from a configuration; a choice that is not
    enabled stops the run where it is. *)
Fixpoint Call_run (kite method args : string) (cs : list choice)
    (fs : Frame * State) : Frame * State :=
  match cs with
  | [] => fs
  | c :: cs' =>
      match Call_step kite method args c fs with
      | Some fs' => Call_run kite method args cs' fs'
      | None => fs
      end
  end.

Definition Call (kite method args : string) (cs : list choice) (s : State)
  : Frame * State :=
  Call_run kite method args cs (Call_start, s).

End AsyncCall.

(** ** Notions used in the statements *)

(** Every index the balancer holds was stored by [roundRobin]: it is an
    index into a slice, so it is not negative and below the longest slice
    the runtime allocates. *)
Definition balance_ok (b : gmap string Z) : Prop :=
  ∀ g i, b !! g = Some i → 0 ≤ i ≤ maxSliceCap.

(** The members of a group, in the order the registry lists them. *)
Definition group (kite : string) (m : gmap string models.Kite)
  : list models.Kite :=
  filter (λ r, models.Kitename r = kite) (peers.List m).

(** [n] resolutions in a row; the peers they select, in order. *)
Fixpoint resolve_times (kite : string) (n : nat) : M (list models.Kite) :=
  match n with
  | O => ret []
  | S n' =>
      res <- roundRobin kite ;;
      match res.1 with
      | Some r => rest <- resolve_times kite n' ;; ret (r :: rest)
      | None => ret []
      end
  end.

(** The payloads handed to the Messenger, oldest first. *)
Definition sends (t : list event) : list bytes :=
  omap (λ e, match e with EvSend msg _ => Some msg | _ => None end) t.

(** The number of connection attempts. *)
Definition dials (t : list event) : nat :=
  length (omap (λ e, match e with EvDial a _ => Some a | _ => None end) t).

(** The request line [dialClient] writes. *)
Definition connect_request : string :=
  "CONNECT " +:+ rpc_DefaultRPCPath +:+ " HTTP/1.0" +:+ LF +:+ LF.

(** The trace at the moment [dialClient] reads the peer's answer. *)
Definition dialled_trace (t : list event) (addr : string) (conn : Conn)
  : list event :=
  (t ++ [EvDial addr (inl conn)]) ++ [EvWrite conn connect_request].

(** ** Sample nodes and surroundings *)

Definition sample_base (name addr uuid : string) : protocol.Base :=
  {| protocol.Username := "u"; protocol.Kitename := name;
     protocol.Version := "1"; protocol.Uuid := uuid;
     protocol.PublicKey := ""; protocol.Hostname := "h";
     protocol.Addr := addr; protocol.LocalIP := ""; protocol.PublicIP := "";
     protocol.Port := ""; protocol.Token := "" |}.

Definition sample_peer (name addr uuid : string) : models.Kite :=
  {| models.Base := sample_base name addr uuid; models.Client := None |}.

Definition sample_node (registered : bool) : Kite :=
  {| Username := "u"; Kitename := "u/me"; Uuid := "id0";
     Addr := "10.0.0.1:0"; PublicKey := "key"; Hostname := "h";
     LocalIP := "10.0.0.1"; PublicIP := "1.2.3.4"; Port := "0";
     Version := "1"; Registered := registered; KontrolEnabled := true;
     OnceServer := false; OnceCall := false |}.

(** Three members of group u/fs and one of u/db. *)
Definition sample_registry : gmap string models.Kite :=
  peers.Add (sample_peer "u/fs" "a:1" "x1")
    (peers.Add (sample_peer "u/fs" "a:2" "x2")
       (peers.Add (sample_peer "u/fs" "a:3" "x3")
          (peers.Add (sample_peer "u/db" "b:1" "y1") peers.New))).

Definition sample_state (registered : bool) (b : gmap string Z) : State :=
  {| self := sample_node registered; kites := sample_registry;
     balance := b; trace := [] |}.

Definition sample_empty_state (registered : bool) : State :=
  {| self := sample_node registered; kites := peers.New;
     balance := balancer.New; trace := [] |}.

(** A world whose coordinator always answers [reply], whose peers accept
    connections when [dial_ok] and answer the handshake with [status];
    requests are encoded as their action and kite name, a broadcast is its
    action word and a registration response its result word. *)
Definition sample_world (reply : bytes) (dial_ok : bool) (status : string)
  : World :=
  {| Messenger_Send := λ _ _, reply;
     net_Dial := λ t addr,
       if dial_ok then inl {| conn_id := length t; conn_remote := addr |}
       else inr (foreign_error "connection refused");
     http_ReadResponse := λ _ _, inl {| Status := status |};
     Client_Call := λ _ _ rpcFunc _, inl ("reply of " +:+ rpcFunc);
     json_Marshal := λ m,
       (protocol.Action m +:+ " "
          +:+ protocol.Kitename (protocol.Request_Base m), None);
     json_Unmarshal_PubResponse := λ msg,
       if String.eqb msg "" then inr (foreign_error "unexpected end of JSON input")
       else inl {| protocol.PubResponse_Base := sample_base "u/fs" "a:9" "x9";
                   protocol.PubResponse_Action := msg |};
     json_Unmarshal_RegisterResponse := λ msg,
       inl {| protocol.Result := msg |} |}.

(** ** Notions used in the statements about the coordinator *)

Definition pong_payload (W : World) (k : Kite) : bytes :=
  (json_Marshal W (pong_request k)).1.

Definition register_payload (W : World) (k : Kite) : bytes :=
  (json_Marshal W (register_request k)).1.

(** The state [Pong] leaves behind. *)
Definition after_Pong (W : World) (s : State) : State :=
  let msg := pong_payload W (self s) in
  let resp := Messenger_Send W (trace s) msg in
  let s1 := record (EvSend msg resp) s in
  if String.eqb resp "UPDATE"
  then set_self (set_Registered false (self s1)) s1
  else s1.

(** How often the registration request of node [k] was handed to the
    Messenger. *)
Definition register_sends (W : World) (k : Kite) (t : list event) : nat :=
  length (filter (λ m, m = register_payload W k) (sends t)).



(** ** Start and the broadcast loop *)

(** [serve(addr)], as far as its caller is concerned: the server is started
    on [addr]. What the server does once it runs (binding the listener,
    which ends the process when it fails, taking the listener's address as
    the node's, the cache pool and the blocking [http.Serve]) is outside
    this file, as it is in [OnceServer_Do]. *)
Definition serve (addr : string) : M unit :=
  modify (record (EvServe addr)).

(** Modelled from the spec: [k.Messenger.Consume(k.handle)] of the Messenger
    collaborator invokes the handler once per inbound payload, here [msgs],
    on one task, so one after the other. *)
Fixpoint Consume (W : World) (msgs : list bytes) : M unit :=
  match msgs with
  | [] => ret tt
  | msg :: rest => handle W msg ;;; Consume W rest
  end.

Definition Start (W : World) (msgs : list bytes) : M unit :=
  s <- get ;;
  if negb (KontrolEnabled (self s))
  then
    modify (λ s, set_self (set_Registered true (self s)) s) ;;;
    s <- get ;;
    serve (Addr (self s))
  else Consume W msgs.

(** ** The listener: ServeHTTP *)

Record http_Request := {
  URL_Path : string;
  Method : string;
  RemoteAddr : string;
}.

Inductive ServerCodec :=
| NewKiteServerCodec (conn : Conn)
| NewDnodeServerCodec (ws : Conn).

(** What [ServeHTTP] does with a request, in order. *)
Inductive server_event :=
| SvClientsAdd (ws : Conn) (addr : string)
| SvServeCodec (c : ServerCodec)
| SvHeaderSet (key value : string)
| SvWriteHeader (code : Z)
| SvBody (data : string)
| SvHijack (res : Conn + error)
| SvWrite (conn : Conn) (data : string).

Definition http_StatusMethodNotAllowed : Z := 405.

(** [serveWS], run by the websocket handler on the upgraded connection. *)
Definition serveWS (ws : Conn) (addr : string) : list server_event :=
  [SvClientsAdd ws addr; SvServeCodec (NewDnodeServerCodec ws)].

(** [WEBSOCKET_PATH] is the constant of package protocol; [upgrade] is the
    connection the websocket handshake yields, if it succeeds, and [hijack]
    what [Hijack] returns. *)
Definition ServeHTTP (WEBSOCKET_PATH : string) (r : http_Request)
    (upgrade : option Conn) (hijack : Conn + error) : list server_event :=
  if String.eqb (URL_Path r) WEBSOCKET_PATH
  then match upgrade with
       | Some ws => serveWS ws (RemoteAddr r)
       | None => []
       end
  else if negb (String.eqb (Method r) "CONNECT")
  then [SvHeaderSet "Content-Type" "text/plain; charset=utf-8";
        SvWriteHeader http_StatusMethodNotAllowed;
        SvBody ("405 must CONNECT" +:+ LF)]
  else
    SvHijack hijack ::
    match hijack with
    | inr _ => []
    | inl conn =>
        [SvWrite conn ("HTTP/1.0 " +:+ connected +:+ LF +:+ LF);
         SvServeCodec (NewKiteServerCodec conn)]
    end.

(** ** Notions used in the statements about the whole node *)

(** Every entry of the registry is stored under its own address. *)
Definition registry_keyed (m : gmap string models.Kite) : Prop :=
  ∀ addr r, m !! addr = Some r → models.Addr r = addr.

(** The peer [AddKite] builds from a broadcast. *)
Definition broadcast_peer (r : protocol.PubResponse) : models.Kite :=
  let b := protocol.PubResponse_Base r in
  {| models.Base :=
       {| protocol.Username := protocol.Username b;
          protocol.Kitename := protocol.Kitename b;
          protocol.Version := protocol.Version b;
          protocol.Uuid := protocol.Uuid b;
          protocol.PublicKey := "";
          protocol.Hostname := protocol.Hostname b;
          protocol.Addr := protocol.Addr b;
          protocol.LocalIP := ""; protocol.PublicIP := "";
          protocol.Port := ""; protocol.Token := "" |};
     models.Client := None |}.

(** How often the server was started. *)
Definition serves (t : list event) : nat :=
  length (omap (λ e, match e with EvServe a => Some a | _ => None end) t).

(** How often a remote method was called synchronously. *)
Definition calls (t : list event) : nat :=
  length (omap (λ e, match e with EvCall _ f _ _ => Some f | _ => None end) t).







(** The server of a node was started exactly when its [OnceServer] was
    used, and then once. *)
Definition server_once (s : State) : Prop :=
  serves (trace s) = if OnceServer (self s) then 1%nat else 0%nat.

(** ** Notions used in the statements about [Call] *)

(** The registry lists at least one peer and no more than [make] takes:
    the states in which [RemoteKites] does not panic. *)
Definition listable (s : State) : Prop :=
  0 < Z.of_nat (length (peers.List (kites s))) ≤ maxSliceCap + 1.

(** A choice that leaves no tick behind: no tick arrives while the body of
    the ticker case runs. *)
Definition no_late (c : choice) : bool :=
  match c with
  | case_ticker true => false
  | _ => true
  end.

(** The discovery request of [Call], encoded. *)
Definition getKites_payload (W : World) (k : Kite) (kite : string) : bytes :=
  (json_Marshal W (getKites_request k kite)).1.

(** ** New *)

(** The fields of [protocol.Options] that [New] reads. *)
Record Options := {
  Options_Username : string;
  Options_Kitename : string;
  Options_Version : string;
  Options_Port : string;
  Options_PublicIP : string;
  Options_LocalIP : string;
}.

(** What [New] takes from the machine it runs on: the configuration file,
    the host name, a fresh id, the key file and the machine's addresses.
    [readOptions], [getKey], [getPublicIP] and [getLocalIP] are functions of
    this package outside main.go. *)
Record Host := {
  readOptions : string → Options + error;
  os_Hostname : string;
  uuid_NewV4 : string;
  getKey : string → string + error;
  getPublicIP : string → string;
  getLocalIP : string → string;
}.

(** [New]; [log.Fatal] ends the process, here the result [inr] with the
    message. The rpc server, the method map, the Messenger and the client
    store of the new node are outside this file. *)
Definition New (H : Host) (o : option Options) : Kite + string :=
  match match o with
        | Some o => inl o
        | None => readOptions H "manifest.json"
        end with
  | inr _ => inr "error: could not read config file"
  | inl o =>
      if String.eqb (Options_Username o) ""
         || String.eqb (Options_Kitename o) ""
      then inr "error: options data is not set properly"
      else
        let hostname := os_Hostname H in
        let kiteID := uuid_NewV4 H in
        match getKey H "public" with
        | inr _ => inr "public key reading:"
        | inl publicKey =>
            let publicIP := getPublicIP H (Options_PublicIP o) in
            let localIP := getLocalIP H (Options_LocalIP o) in
            let port := if String.eqb (Options_Port o) "" then "0"
                        else Options_Port o in
            inl {| Username := Options_Username o;
                   Kitename := Options_Username o +:+ "/"
                                 +:+ Options_Kitename o;
                   Uuid := kiteID;
                   Addr := localIP +:+ ":" +:+ port;
                   PublicKey := publicKey;
                   Hostname := hostname;
                   LocalIP := localIP;
                   PublicIP := publicIP;
                   Port := port;
                   Version := Options_Version o;
                   Registered := false;
                   KontrolEnabled := true;
                   OnceServer := false;
                   OnceCall := false |}
        end
  end.


(** * Properties *)

(** ** Arithmetic of the index computation *)

Lemma wrap_int_small z : - 2 ^ 63 ≤ z < 2 ^ 63 → wrap_int z = z.
Proof. intros Hz. unfold wrap_int. rewrite Z.mod_small; lia. Qed.

Lemma float64_of_int_exact z : Z.abs z ≤ 2 ^ 53 → float64_of_int z = Fint z.
Proof.
  intros Hz. unfold float64_of_int.
  destruct (Z.leb_spec (Z.abs z) (2 ^ 53)); [done | lia].
Qed.

Lemma float64_of_int_nonneg z :
  0 ≤ z → ∃ y, float64_of_int z = Fint y ∧ 0 ≤ y.
Proof.
  intros Hz. unfold float64_of_int.
  destruct (Z.abs z <=? 2 ^ 53); [by exists z |].
  eexists; split; [reflexivity |].
  apply Z.mul_nonneg_nonneg; [lia |].
  apply Z.mul_nonneg_nonneg; [| apply Z.pow_nonneg; lia].
  assert (0 ≤ Z.abs z / 2 ^ (Z.log2 (Z.abs z) - 52)).
  { destruct (Z.le_gt_cases 0 (Z.log2 (Z.abs z) - 52)).
    - apply Z.div_pos; [lia |]. apply Z.pow_pos_nonneg; lia.
    - rewrite Z.pow_neg_r, Z.div_0_r by lia. lia. }
  destruct (_ || _); lia.
Qed.

Lemma next_index_in_bounds i m :
  0 ≤ i < 2 ^ 63 - 1 → 0 < m ≤ maxSliceCap + 1 →
  ∃ x, float64_of_int (wrap_int (i + 1)) = Fint x ∧ 0 ≤ x ∧
       int_of_float64 (math_Mod (Fint x) (float64_of_int m)) = x mod m ∧
       0 ≤ x mod m < m.
Proof.
  intros Hi Hm. unfold maxSliceCap in Hm.
  rewrite wrap_int_small by lia.
  destruct (float64_of_int_nonneg (i + 1)) as (x & Hx & Hx0); [lia |].
  exists x. split; [done |]. split; [done |].
  rewrite float64_of_int_exact by lia. simpl.
  destruct (Z.eqb_spec m 0); [lia |].
  rewrite Z.rem_mod_nonneg by lia.
  pose proof (Z.mod_pos_bound x m) as Hb.
  split; [| lia]. simpl.
  destruct (Z.leb_spec (- 2 ^ 63) (x mod m)); [| lia].
  destruct (Z.ltb_spec (x mod m) (2 ^ 63)); [done | lia].
Qed.

Lemma next_index_exact i m :
  0 ≤ i ≤ maxSliceCap → 0 < m ≤ maxSliceCap + 1 →
  int_of_float64
    (math_Mod (float64_of_int (wrap_int (i + 1))) (float64_of_int m))
  = (i + 1) mod m.
Proof.
  intros Hi Hm.
  destruct (next_index_in_bounds i m) as (x & Hx & _ & Hn & _);
    [unfold maxSliceCap in *; lia | done |].
  rewrite Hx, Hn. rewrite wrap_int_small in Hx by (unfold maxSliceCap in *; lia).
  rewrite float64_of_int_exact in Hx by (unfold maxSliceCap in *; lia).
  by inversion Hx.
Qed.


(** ** Resolution *)

Lemma RemoteKites_loop_filter kite l acc :
  RemoteKites_loop kite l acc
  = acc ++ filter (λ r, models.Kitename r = kite) l.
Proof.
  revert acc. induction l as [| r l IH]; intros acc; simpl.
  - by rewrite app_nil_r.
  - rewrite filter_cons. destruct (String.eqb_spec (models.Kitename r) kite).
    + rewrite IH, decide_True by done. by rewrite <- app_assoc.
    + rewrite IH, decide_False by done. done.
Qed.

Lemma RemoteKites_unfold kite s :
  RemoteKites kite s =
  if (Z.of_nat (length (peers.List (kites s))) - 1 <? 0)
     || (maxSliceCap <? Z.of_nat (length (peers.List (kites s))) - 1)
  then Panicked "makeslice: cap out of range"
  else Done (group kite (kites s), s).
Proof.
  unfold RemoteKites, bind, get, make_slice, group.
  destruct (_ || _); simpl; [done |].
  by rewrite RemoteKites_loop_filter.
Qed.

Lemma RemoteKites_Done kite s l s' :
  RemoteKites kite s = Done (l, s') ↔
  s' = s ∧ l = group kite (kites s) ∧
  0 < Z.of_nat (length (peers.List (kites s))) ≤ maxSliceCap + 1.
Proof.
  rewrite RemoteKites_unfold.
  destruct (Z.ltb_spec (Z.of_nat (length (peers.List (kites s))) - 1) 0);
    destruct (Z.ltb_spec maxSliceCap
                (Z.of_nat (length (peers.List (kites s))) - 1)); simpl;
    split; try (intros [= <- <-]); try (intros (-> & -> & ?)); try done;
    try lia; repeat split; lia.
Qed.

Lemma RemoteKites_state kite s l s' :
  RemoteKites kite s = Done (l, s') → s' = s.
Proof. rewrite RemoteKites_Done. tauto. Qed.

Lemma RemoteKites_length kite s l s' :
  RemoteKites kite s = Done (l, s') →
  Z.of_nat (length l) ≤ maxSliceCap + 1.
Proof.
  rewrite RemoteKites_Done. intros (_ & -> & Hlen).
  pose proof (length_filter (λ r, models.Kitename r = kite)
                (peers.List (kites s))).
  unfold group. lia.
Qed.

Lemma RemoteKites_set_balance kite s b :
  RemoteKites kite (set_balance b s)
  = match RemoteKites kite s with
    | Done (l, s') => Done (l, set_balance b s')
    | Panicked why => Panicked why
    end.
Proof. rewrite !RemoteKites_unfold. simpl. by destruct (_ || _). Qed.

Lemma RemoteKites_empty_registry kite s :
  kites s = ∅ → RemoteKites kite s = Panicked "makeslice: cap out of range".
Proof.
  intros He. rewrite RemoteKites_unfold, He.
  unfold peers.List. by rewrite map_to_list_empty.
Qed.

Lemma roundRobin_unknown kite s :
  RemoteKites kite s = Done ([], s) →
  roundRobin kite s =
    Done ((None, Some (fmt_Errorf ("kite " +:+ kite +:+ " does not exist"))), s).
Proof. intros H. unfold roundRobin, bind. by rewrite H. Qed.

Lemma roundRobin_pick kite s l :
  RemoteKites kite s = Done (l, s) →
  l ≠ [] →
  0 ≤ balancer.GetIndex kite (balance s) < 2 ^ 63 - 1 →
  ∃ x r,
    float64_of_int (wrap_int (balancer.GetIndex kite (balance s) + 1)) = Fint x ∧
    0 ≤ x mod Z.of_nat (length l) < Z.of_nat (length l) ∧
    l !! Z.to_nat (x mod Z.of_nat (length l)) = Some r ∧
    roundRobin kite s =
      Done ((Some r, None),
            set_balance (balancer.AddOrUpdateIndex kite
                           (x mod Z.of_nat (length l)) (balance s)) s).
Proof.
  intros HR Hl Hi.
  pose proof (RemoteKites_length _ _ _ _ HR) as Hlen.
  assert (0 < Z.of_nat (length l)) as Hpos by (destruct l; simpl; [done | lia]).
  destruct (next_index_in_bounds (balancer.GetIndex kite (balance s))
              (Z.of_nat (length l))) as (x & Hx & Hx0 & Hn & Hb); [done.. |].
  destruct (lookup_lt_is_Some_2 l (Z.to_nat (x mod Z.of_nat (length l))))
    as [r Hr]; [lia |].
  exists x, r. repeat split; try done; try lia.
  unfold roundRobin, bind. rewrite HR.
  destruct (Z.eqb_spec (Z.of_nat (length l)) 0); [lia |].
  unfold get, modify, slice_index, ret. simpl.
  rewrite Hx, Hn.
  destruct (Z.ltb_spec (x mod Z.of_nat (length l)) 0); [lia |].
  by rewrite Hr.
Qed.

Lemma roundRobin_select kite s l :
  balance_ok (balance s) →
  RemoteKites kite s = Done (l, s) →
  l ≠ [] →
  let n := (balancer.GetIndex kite (balance s) + 1) mod Z.of_nat (length l) in
  ∃ r, l !! Z.to_nat n = Some r ∧
       roundRobin kite s =
         Done ((Some r, None),
               set_balance (balancer.AddOrUpdateIndex kite n (balance s)) s).
Proof.
  intros Hok HR Hl n.
  assert (0 ≤ balancer.GetIndex kite (balance s) ≤ maxSliceCap) as Hi.
  { unfold balancer.GetIndex.
    destruct (balance s !! kite) as [i |] eqn:E; simpl;
      [by apply (Hok kite) | unfold maxSliceCap; lia]. }
  destruct (roundRobin_pick kite s l) as (x & r & Hx & _ & Hr & Hrr);
    [done | done | unfold maxSliceCap in Hi; lia |].
  rewrite wrap_int_small, float64_of_int_exact in Hx
    by (unfold maxSliceCap in Hi; lia).
  inversion Hx; subst x. by exists r.
Qed.

Lemma GetIndex_bounds kite b :
  balance_ok b → 0 ≤ balancer.GetIndex kite b ≤ maxSliceCap.
Proof.
  intros Hok. unfold balancer.GetIndex.
  destruct (b !! kite) as [i |] eqn:E; simpl;
    [by apply (Hok kite) | unfold maxSliceCap; lia].
Qed.

Lemma balance_ok_empty : balance_ok balancer.New.
Proof. intros g i. unfold balancer.New. by rewrite lookup_empty. Qed.

Lemma balance_ok_update kite n b :
  balance_ok b → 0 ≤ n ≤ maxSliceCap →
  balance_ok (balancer.AddOrUpdateIndex kite n b).
Proof.
  intros Hok Hn g i. unfold balancer.AddOrUpdateIndex.
  rewrite lookup_insert. case_decide.
  - intros [= <-]. done.
  - apply Hok.
Qed.

Lemma GetIndex_update kite n b :
  balancer.GetIndex kite (balancer.AddOrUpdateIndex kite n b) = n.
Proof.
  unfold balancer.GetIndex, balancer.AddOrUpdateIndex.
  by rewrite lookup_insert_eq.
Qed.

(** A resolution keeps the balancer within its bounds. *)
Lemma roundRobin_balance_ok kite s res s' :
  balance_ok (balance s) →
  roundRobin kite s = Done (res, s') →
  balance_ok (balance s') ∧ kites s' = kites s ∧ self s' = self s ∧
  trace s' = trace s.
Proof.
  intros Hok Hrr.
  destruct (RemoteKites kite s) as [[l s1] | why] eqn:HR;
    [| unfold roundRobin, bind in Hrr; by rewrite HR in Hrr].
  pose proof (RemoteKites_state _ _ _ _ HR) as ->.
  destruct l as [| r0 l0].
  - rewrite (roundRobin_unknown _ _ HR) in Hrr. by inversion Hrr; subst.
  - destruct (roundRobin_select kite s (r0 :: l0)) as (r & Hr & Heq);
      [done.. |].
    rewrite Heq in Hrr. inversion Hrr; subst. simpl.
    split; [| done].
    apply balance_ok_update; [done |].
    pose proof (RemoteKites_length _ _ _ _ HR) as Hlen.
    pose proof (Z.mod_pos_bound
      (balancer.GetIndex kite (balance s) + 1)
      (Z.of_nat (length (r0 :: l0)))) as Hb.
    simpl length in *. lia.
Qed.

Lemma resolve_times_spec kite l k s :
  balance_ok (balance s) →
  RemoteKites kite s = Done (l, s) →
  l ≠ [] →
  ∃ picked s',
    resolve_times kite k s = Done (picked, s') ∧
    length picked = k ∧
    (∀ j, (j < k)%nat →
       picked !! j =
       l !! Z.to_nat ((balancer.GetIndex kite (balance s) + 1 + Z.of_nat j)
                        mod Z.of_nat (length l))) ∧
    kites s' = kites s ∧ self s' = self s ∧ trace s' = trace s ∧
    balance_ok (balance s') ∧
    RemoteKites kite s' = Done (l, s') ∧
    ((0 < k)%nat →
       balancer.GetIndex kite (balance s') =
       (balancer.GetIndex kite (balance s) + Z.of_nat k)
         mod Z.of_nat (length l)).
Proof.
  revert s. induction k as [| k IH]; intros s Hok HR Hl.
  - exists [], s. split_and!; try done; intros; lia.
  - destruct (roundRobin_select kite s l Hok HR Hl) as (r & Hr & Hrr).
    set (i := balancer.GetIndex kite (balance s)) in *.
    set (n := Z.of_nat (length l)) in *.
    set (s1 := set_balance
                 (balancer.AddOrUpdateIndex kite ((i + 1) mod n) (balance s)) s)
      in *.
    assert (0 < n) as Hn by (subst n; destruct l; simpl; [done | lia]).
    destruct (roundRobin_balance_ok _ _ _ _ Hok Hrr) as (Hok1 & _).
    assert (RemoteKites kite s1 = Done (l, s1)) as HR1.
    { subst s1. by rewrite RemoteKites_set_balance, HR. }
    assert (balancer.GetIndex kite (balance s1) = (i + 1) mod n) as Hi1.
    { subst s1. simpl. apply GetIndex_update. }
    destruct (IH s1 Hok1 HR1 Hl)
      as (picked & s' & Hrun & Hlen & Hpick & Hk & Hs & Ht & Hok' & HR' & Hidx).
    exists (r :: picked), s'.
    split.
    { simpl. unfold bind at 1. rewrite Hrr. simpl.
      unfold bind. by rewrite Hrun. }
    split; [simpl; by rewrite Hlen |].
    split.
    { intros [| j] Hj; simpl.
      - rewrite Z.add_0_r. by rewrite Hr.
      - rewrite Hpick by lia. rewrite Hi1. f_equal. f_equal.
        fold n. rewrite <- Z.add_assoc, Zplus_mod_idemp_l. f_equal. lia. }
    split_and!; try done.
    intros _. destruct k as [| k'].
    + simpl in Hrun. inversion Hrun; subst s'. by rewrite Hi1.
    + rewrite Hidx by lia. rewrite Hi1. fold n.
      rewrite Zplus_mod_idemp_l. f_equal. lia.
Qed.

Lemma rotate_Permutation {A} (c : nat) (l : list A) : rotate c l ≡ₚ l.
Proof.
  unfold rotate. rewrite (comm (++)). by rewrite take_drop.
Qed.

(** ** The dial handshake *)

Lemma dialClient_cases W kite s :
  let addr := models.Addr kite in
  match net_Dial W (trace s) addr with
  | inr e =>
      dialClient W kite s = Done ((None, Some e), record (EvDial addr (inr e)) s)
  | inl conn =>
      let s1 := record (EvWrite conn connect_request)
                  (record (EvDial addr (inl conn)) s) in
      let read := http_ReadResponse W (trace s1) conn in
      let s2 := record (EvReadResponse conn read) s1 in
      match read with
      | inl resp =>
          if String.eqb (Status resp) connected
          then dialClient W kite s =
                 Done ((Some (rpc_NewClientWithCodec (NewKiteClientCodec conn)),
                        None), s2)
          else dialClient W kite s =
                 Done ((None,
                        Some (net_OpError "dial-http" ("tcp " +:+ addr)
                                (errors_New ("unexpected HTTP response: "
                                               +:+ Status resp)))),
                       record (EvClose conn) s2)
      | inr e =>
          dialClient W kite s =
            Done ((None, Some (net_OpError "dial-http" ("tcp " +:+ addr) e)),
                  record (EvClose conn) s2)
      end
  end.
Proof.
  unfold dialClient, bind, get, modify, ret, connect_request. simpl.
  destruct (net_Dial W (trace s) (models.Addr kite)) as [conn | e]; simpl;
    [| done].
  destruct (http_ReadResponse W _ conn) as [resp | e]; simpl; [| done].
  by destruct (String.eqb (Status resp) connected).
Qed.

Lemma dials_app t e :
  dials (t ++ [e]) =
  (dials t + match e with EvDial _ _ => 1 | _ => 0 end)%nat.
Proof.
  unfold dials. rewrite omap_app, length_app. by destruct e.
Qed.

(** A dial never panics and touches nothing but the trace. *)
Lemma dialClient_frame W kite s :
  ∃ client err s',
    dialClient W kite s = Done ((client, err), s') ∧
    kites s' = kites s ∧ balance s' = balance s ∧ self s' = self s ∧
    (err = None → client ≠ None) ∧ (err ≠ None → client = None).
Proof.
  pose proof (dialClient_cases W kite s) as H. simpl in H.
  destruct (net_Dial W (trace s) (models.Addr kite)) as [conn | e].
  - destruct (http_ReadResponse W _ conn) as [resp | e].
    + destruct (String.eqb (Status resp) connected);
        do 3 eexists; (split; [exact H |]); split_and!; done.
    + do 3 eexists; (split; [exact H |]); split_and!; done.
  - do 3 eexists; (split; [exact H |]); split_and!; done.
Qed.

(** ** The claims about resolution *)

(** With a non-empty registry that holds no member of the group, the call
    fails with the error that names the group and changes nothing. *)
Lemma CallSync_unknown_group W kite method args s :
  RemoteKites kite s = Done ([], s) →
  CallSync W kite method args s =
    Done ((None, Some (fmt_Errorf ("kite " +:+ kite +:+ " does not exist"))), s).
Proof.
  intros HR. unfold CallSync, getRemoteKite, bind.
  by rewrite (roundRobin_unknown _ _ HR).
Qed.

(** C1. A call to a group without known members is claimed to return an
    error naming the group; on the empty registry, the state of a node that
    has not yet heard of any peer, [RemoteKites] asks [make] for a capacity
    of [len(l)-1 = -1] and the call panics instead of returning. *)
Theorem C1_CallSync_empty_registry_panics
    (W : World) (kite method args : string) (s : State) :
  CallSync W kite method args (set_kites peers.New s)
  = Panicked "makeslice: cap out of range".
Proof.
  unfold CallSync, getRemoteKite, roundRobin, bind.
  by rewrite RemoteKites_empty_registry.
Qed.

(** C2. For a group with n > 0 registered peers, a resolution selects the
    index (lastIndex + 1) mod n, lastIndex being the balancer's index of the
    group (0 if unseen), and stores it back; n resolutions in a row select
    every peer of the group exactly once (the group rotated to the first
    selected index), and the one after them selects the first peer again. *)
Theorem C2_round_robin_cycle (kite : string) (s : State) (l : list models.Kite) :
  balance_ok (balance s) →
  RemoteKites kite s = Done (l, s) →
  l ≠ [] →
  let n := Z.of_nat (length l) in
  let lastIndex := balancer.GetIndex kite (balance s) in
  let next := (lastIndex + 1) mod n in
  ∃ r picked s',
    l !! Z.to_nat next = Some r ∧
    roundRobin kite s =
      Done ((Some r, None),
            set_balance (balancer.AddOrUpdateIndex kite next (balance s)) s) ∧
    resolve_times kite (length l) s = Done (picked, s') ∧
    picked = rotate (Z.to_nat next) l ∧
    picked ≡ₚ l ∧
    ∃ s'', roundRobin kite s' = Done ((Some r, None), s'').
Proof.
  intros Hok HR Hl n lastIndex next.
  destruct (roundRobin_select kite s l Hok HR Hl) as (r & Hr & Hrr).
  destruct (resolve_times_spec kite l (length l) s Hok HR Hl)
    as (picked & s' & Hrun & Hlen & Hpick & _ & _ & _ & Hok' & HR' & Hidx).
  assert (0 < n) as Hn by (subst n; destruct l; simpl; [done | lia]).
  assert (picked = rotate (Z.to_nat next) l) as Hrot.
  { apply list_eq. intros j.
    destruct (decide (j < length l)%nat) as [Hj | Hj].
    - rewrite Hpick, lookup_rotate_r by done.
      unfold rotate_nat_add. f_equal. f_equal.
      rewrite Z2Nat.id by (subst next; apply Z.mod_pos_bound; lia).
      subst next. fold n. rewrite Zplus_mod_idemp_l.
      by fold lastIndex.
    - rewrite !lookup_ge_None_2; [done | rewrite length_rotate; lia | lia]. }
  exists r, picked, s'. split_and!; try done.
  - rewrite Hrot. apply rotate_Permutation.
  - destruct (roundRobin_select kite s' l Hok' HR' Hl) as (r' & Hr' & Hrr').
    assert ((balancer.GetIndex kite (balance s') + 1) mod Z.of_nat (length l)
            = next) as Hsame.
    { rewrite Hidx by (destruct l; simpl; [done | lia]).
      fold n lastIndex. rewrite Zplus_mod_idemp_l.
      replace (lastIndex + n + 1) with (lastIndex + 1 + 1 * n) by lia.
      by rewrite Z.mod_add by lia. }
    rewrite Hsame in Hr', Hrr'.
    change (l !! Z.to_nat next = Some r) in Hr.
    rewrite Hr in Hr'. inversion Hr'; subst r'.
    eexists. exact Hrr'.
Qed.

Lemma C2_round_robin_cycle_witness :
  let s := sample_state true balancer.New in
  let l := group "u/fs" sample_registry in
  balance_ok (balance s) ∧ RemoteKites "u/fs" s = Done (l, s) ∧ l ≠ [] ∧
  ∃ r picked s',
    l !! Z.to_nat ((balancer.GetIndex "u/fs" (balance s) + 1)
                     mod Z.of_nat (length l)) = Some r ∧
    roundRobin "u/fs" s =
      Done ((Some r, None),
            set_balance
              (balancer.AddOrUpdateIndex "u/fs"
                 ((balancer.GetIndex "u/fs" (balance s) + 1)
                    mod Z.of_nat (length l)) (balance s)) s) ∧
    resolve_times "u/fs" (length l) s = Done (picked, s') ∧
    picked = rotate (Z.to_nat ((balancer.GetIndex "u/fs" (balance s) + 1)
                                 mod Z.of_nat (length l))) l ∧
    picked ≡ₚ l ∧
    ∃ s'', roundRobin "u/fs" s' = Done ((Some r, None), s'').
Proof.
  intros s l.
  assert (balance_ok (balance s)) as H1 by apply balance_ok_empty.
  assert (RemoteKites "u/fs" s = Done (l, s)) as H2 by (vm_compute; reflexivity).
  assert (l ≠ []) as H3 by (vm_compute; discriminate).
  split_and!; [done.. |].
  apply (C2_round_robin_cycle "u/fs" s l H1 H2 H3).
Defined.

(** C3. Whatever non-negative index the balancer holds for the group, also
    one left over from a larger group, and whatever the size m > 0 of the
    group now, the next resolution reduces the index modulo m: the selected
    index lies in [0, m), the slice access is in bounds and the resolution
    returns the peer at that index. *)
Theorem C3_selected_index_in_bounds
    (kite : string) (s : State) (l : list models.Kite) :
  RemoteKites kite s = Done (l, s) →
  l ≠ [] →
  0 ≤ balancer.GetIndex kite (balance s) < 2 ^ 63 - 1 →
  let m := Z.of_nat (length l) in
  ∃ x index r,
    float64_of_int (wrap_int (balancer.GetIndex kite (balance s) + 1)) = Fint x ∧
    index = x mod m ∧
    0 ≤ index < m ∧
    l !! Z.to_nat index = Some r ∧
    roundRobin kite s =
      Done ((Some r, None),
            set_balance (balancer.AddOrUpdateIndex kite index (balance s)) s) ∧
    (balancer.GetIndex kite (balance s) < 2 ^ 53 →
     index = (balancer.GetIndex kite (balance s) + 1) mod m).
Proof.
  intros HR Hl Hi m.
  destruct (roundRobin_pick kite s l HR Hl Hi) as (x & r & Hx & Hb & Hr & Hrr).
  exists x, (x mod m), r. split_and!; try done; try (subst m; lia).
  intros Hsmall.
  rewrite wrap_int_small, float64_of_int_exact in Hx by lia.
  by inversion Hx.
Qed.

Lemma C3_selected_index_in_bounds_witness :
  let s := sample_state true (balancer.AddOrUpdateIndex "u/fs" 7 balancer.New) in
  let l := group "u/fs" sample_registry in
  RemoteKites "u/fs" s = Done (l, s) ∧ l ≠ [] ∧
  0 ≤ balancer.GetIndex "u/fs" (balance s) < 2 ^ 63 - 1 ∧
  ∃ x index r,
    float64_of_int (wrap_int (balancer.GetIndex "u/fs" (balance s) + 1)) = Fint x ∧
    index = x mod Z.of_nat (length l) ∧
    0 ≤ index < Z.of_nat (length l) ∧
    l !! Z.to_nat index = Some r ∧
    roundRobin "u/fs" s =
      Done ((Some r, None),
            set_balance (balancer.AddOrUpdateIndex "u/fs" index (balance s)) s) ∧
    (balancer.GetIndex "u/fs" (balance s) < 2 ^ 53 →
     index = (balancer.GetIndex "u/fs" (balance s) + 1) mod Z.of_nat (length l)).
Proof.
  intros s l.
  assert (RemoteKites "u/fs" s = Done (l, s)) as H1 by (vm_compute; reflexivity).
  assert (l ≠ []) as H2 by (vm_compute; discriminate).
  assert (0 ≤ balancer.GetIndex "u/fs" (balance s) < 2 ^ 63 - 1) as H3
    by (vm_compute; split; [discriminate | reflexivity]).
  split_and!; [done.. |].
  apply (C3_selected_index_in_bounds "u/fs" s l H1 H2 H3).
Defined.

(** C6. A dial returns a client exactly when the connection was opened and
    the peer's answer was read with the status line "200 Connected to Go
    RPC"; the client then wraps the connection in the kite codec and the
    error is nil. In every other case (connect refused, answer absent or
    malformed, any other status line) the client is nil, the error is not,
    and a connection that was opened is closed as the last thing done. A
    dial connects once, whatever the outcome, and leaves the registry, the
    balancer and the node as they were. *)
Theorem C6_dial_handshake (W : World) (kite : models.Kite) (s : State) :
  let addr := models.Addr kite in
  ∃ client err s',
    dialClient W kite s = Done ((client, err), s') ∧
    (∀ c, client = Some c ↔
          ∃ conn resp,
            net_Dial W (trace s) addr = inl conn ∧
            http_ReadResponse W (dialled_trace (trace s) addr conn) conn
              = inl resp ∧
            Status resp = connected ∧
            c = rpc_NewClientWithCodec (NewKiteClientCodec conn)) ∧
    (client ≠ None → err = None) ∧
    (client = None →
       err ≠ None ∧
       ∀ conn, net_Dial W (trace s) addr = inl conn →
               last (trace s') = Some (EvClose conn)) ∧
    dials (trace s') = S (dials (trace s)) ∧
    kites s' = kites s ∧ balance s' = balance s ∧ self s' = self s.
Proof.
  intros addr. pose proof (dialClient_cases W kite s) as H. simpl in H.
  fold addr in H. unfold dialled_trace.
  destruct (net_Dial W (trace s) addr) as [conn | e] eqn:Hd.
  - destruct (http_ReadResponse W _ conn) as [resp | e] eqn:Hread.
    + destruct (String.eqb_spec (Status resp) connected) as [Hst | Hst].
      * do 3 eexists. split; [exact H |]. split_and!; try done.
        -- intros c. split.
           ++ intros [= <-]. by exists conn, resp.
           ++ intros (conn' & resp' & [= <-] & _ & _ & ->). done.
        -- simpl. rewrite !dials_app. simpl. lia.
      * do 3 eexists. split; [exact H |]. split_and!; try done.
        -- intros c. split; [done |].
           intros (conn' & resp' & [= <-] & Hr' & Hst' & _).
           simpl in Hread. rewrite Hread in Hr'. congruence.
        -- intros _. split; [done |]. intros conn' [= <-]. simpl.
           by rewrite last_snoc.
        -- simpl. rewrite !dials_app. simpl. lia.
    + do 3 eexists. split; [exact H |]. split_and!; try done.
      * intros c. split; [done |].
        intros (conn' & resp' & [= <-] & Hr' & _).
        simpl in Hread. rewrite Hread in Hr'. congruence.
      * intros _. split; [done |]. intros conn' [= <-]. simpl.
        by rewrite last_snoc.
      * simpl. rewrite !dials_app. simpl. lia.
  - do 3 eexists. split; [exact H |]. split_and!; try done.
    + intros c. split; [done |]. by intros (conn' & resp' & ? & _).
    + simpl. rewrite dials_app. simpl. lia.
Qed.



(** Resolutions keep the balancer within its bounds, dial or no dial. *)
Lemma getRemoteKite_balance_ok W kite s res s' :
  balance_ok (balance s) →
  getRemoteKite W kite s = Done (res, s') →
  balance_ok (balance s').
Proof.
  intros Hok Hg. unfold getRemoteKite, bind at 1 in Hg.
  destruct (roundRobin kite s) as [[[r err] s1] | why] eqn:Hrr; [| done].
  destruct (roundRobin_balance_ok _ _ _ _ Hok Hrr) as (Hok1 & _).
  destruct err as [e |]; [by inversion Hg; subst |].
  destruct r as [r |]; [| done].
  destruct (models.Client r); [by inversion Hg; subst |].
  destruct (dialClient_frame W r s1) as (client & err & s2 & Hd & _ & Hb & _).
  unfold bind in Hg. rewrite Hd in Hg.
  destruct err; unfold modify, ret in Hg; inversion Hg; subst; simpl;
    by rewrite Hb.
Qed.

(** ** The coordination state machine *)

Lemma sends_app t1 t2 : sends (t1 ++ t2) = sends t1 ++ sends t2.
Proof. unfold sends. apply omap_app. Qed.

Lemma Pong_eq W s : Pong W s = Done (tt, after_Pong W s).
Proof.
  unfold Pong, Send, after_Pong, pong_payload, bind, get, modify, ret. simpl.
  by destruct (String.eqb _ "UPDATE").
Qed.

Lemma after_Pong_frame W s :
  kites (after_Pong W s) = kites s ∧
  balance (after_Pong W s) = balance s ∧
  trace (after_Pong W s) =
    trace s ++ [EvSend (pong_payload W (self s))
                  (Messenger_Send W (trace s) (pong_payload W (self s)))] ∧
  register_request (self (after_Pong W s)) = register_request (self s) ∧
  pong_request (self (after_Pong W s)) = pong_request (self s) ∧
  Addr (self (after_Pong W s)) = Addr (self s) ∧
  OnceServer (self (after_Pong W s)) = OnceServer (self s) ∧
  (Registered (self s) = false → Registered (self (after_Pong W s)) = false) ∧
  (Registered (self (after_Pong W s)) = true →
   Registered (self s) = true ∧
   Messenger_Send W (trace s) (pong_payload W (self s)) ≠ "UPDATE").
Proof.
  unfold after_Pong.
  destruct (String.eqb_spec
              (Messenger_Send W (trace s) (pong_payload W (self s))) "UPDATE");
    simpl; split_and!; try done.
Qed.

Lemma AddKite_unregistered r s :
  Registered (self s) = false → AddKite r s = Done (tt, s).
Proof. intros H. unfold AddKite, bind, get. simpl. by rewrite H. Qed.

Lemma RemoveKite_unregistered r s :
  Registered (self s) = false → RemoveKite r s = Done (tt, s).
Proof. intros H. unfold RemoveKite, bind, get. simpl. by rewrite H. Qed.

(** The outcomes of a registration attempt, by the coordinator's answer. *)
Lemma RegisterToKontrol_cases W s msg resp :
  json_Marshal W (register_request (self s)) = (msg, None) →
  json_Unmarshal_RegisterResponse W (Messenger_Send W (trace s) msg)
    = inl resp →
  RegisterToKontrol W s =
    Done (if String.eqb (protocol.Result resp) protocol.AllowKite then None
          else if String.eqb (protocol.Result resp) protocol.PermitKite
          then Some (errors_New "no permission to run")
          else Some (errors_New "got a nonstandard response"),
          record (EvSend msg (Messenger_Send W (trace s) msg)) s).
Proof.
  intros Hm Hu. unfold RegisterToKontrol, Send, bind, get, modify, ret. simpl.
  rewrite Hm. simpl. rewrite Hu.
  destruct (String.eqb _ protocol.AllowKite); [done |].
  by destruct (String.eqb _ protocol.PermitKite).
Qed.

(** A registration attempt hands at most one request to the Messenger and
    never panics. *)
Lemma RegisterToKontrol_total W s :
  ∃ err s',
    RegisterToKontrol W s = Done (err, s') ∧
    self s' = self s ∧ kites s' = kites s ∧ balance s' = balance s ∧
    ∃ rest, trace s' = trace s ++ rest ∧
      sends rest =
        match (json_Marshal W (register_request (self s))).2 with
        | None => [register_payload W (self s)]
        | Some _ => []
        end.
Proof.
  unfold RegisterToKontrol, Send, register_payload, bind, get, modify, ret.
  simpl.
  destruct (json_Marshal W (register_request (self s))) as [msg [e |]]; simpl.
  - do 2 eexists. split; [reflexivity |]. split_and!; try done.
    exists []. by rewrite app_nil_r.
  - destruct (json_Unmarshal_RegisterResponse W _) as [resp | e]; simpl.
    + destruct (String.eqb _ protocol.AllowKite);
        [| destruct (String.eqb _ protocol.PermitKite)];
        do 2 eexists; (split; [reflexivity |]); split_and!; try done;
        by eexists.
    + do 2 eexists. split; [reflexivity |]. split_and!; try done. by eexists.
Qed.

Lemma InitializeKite_registered W s :
  Registered (self s) = true → InitializeKite W s = Done (tt, s).
Proof. intros H. unfold InitializeKite, bind, get. simpl. by rewrite H. Qed.

Lemma InitializeKite_unregistered W s :
  Registered (self s) = false →
  ∃ s', InitializeKite W s = Done (tt, s') ∧
        kites s' = kites s ∧ balance s' = balance s ∧
        ∃ rest, trace s' = trace s ++ rest ∧
          sends rest =
            match (json_Marshal W (register_request (self s))).2 with
            | None => [register_payload W (self s)]
            | Some _ => []
            end.
Proof.
  intros H. unfold InitializeKite. unfold bind at 1, get at 1. rewrite H.
  destruct (RegisterToKontrol_total W s)
    as (err & s1 & Hr & Hs & Hk & Hb & rest & Ht & Hsends).
  unfold bind at 1. rewrite Hr.
  destruct err as [e |].
  - exists s1. split_and!; try done. by exists rest.
  - unfold OnceServer_Do, bind, get, modify, ret. simpl.
    destruct (OnceServer (self s1)); simpl; eexists;
      (split; [reflexivity |]); simpl; split_and!; try done.
    + by exists rest.
    + exists (rest ++ [EvServe (Addr (self s1))]).
      rewrite Ht, sends_app, <- app_assoc. simpl.
      by rewrite app_nil_r.
Qed.

Lemma handle_decoded W msg r s :
  json_Unmarshal_PubResponse W msg = inl r →
  handle W msg s =
    let action := protocol.PubResponse_Action r in
    let sp := after_Pong W s in
    if String.eqb action protocol.AddKite then AddKite r sp
    else if String.eqb action protocol.RemoveKite then RemoveKite r sp
    else if String.eqb action protocol.UpdateKite
    then Done (tt, set_self (set_Registered false (self sp)) sp)
    else if String.eqb action "ping" then InitializeKite W sp
    else Done (tt, sp).
Proof.
  intros H. unfold handle. rewrite H. unfold bind. rewrite Pong_eq. simpl.
  repeat (destruct (String.eqb (protocol.PubResponse_Action r) _); [done |]).
  done.
Qed.

Lemma handle_undecoded W msg e s :
  json_Unmarshal_PubResponse W msg = inr e → handle W msg s = Done (tt, s).
Proof. intros H. unfold handle. by rewrite H. Qed.

(** A broadcast handled by a node that is not registered: the pong goes
    out, and the registration request after it exactly when the action is
    ping. *)
Lemma handle_unregistered_sends W msg r s :
  json_Unmarshal_PubResponse W msg = inl r →
  Registered (self s) = false →
  (json_Marshal W (register_request (self s))).2 = None →
  ∃ s', handle W msg s = Done (tt, s') ∧
        sends (trace s') =
          sends (trace s) ++ pong_payload W (self s) ::
            (if String.eqb (protocol.PubResponse_Action r) "ping"
             then [register_payload W (self s)] else []).
Proof.
  intros Hd Hreg Hm. rewrite (handle_decoded _ _ _ _ Hd). simpl.
  destruct (after_Pong_frame W s)
    as (_ & _ & Ht & Hrq & _ & _ & _ & Hunreg & _).
  specialize (Hunreg Hreg).
  destruct (String.eqb_spec (protocol.PubResponse_Action r) protocol.AddKite)
    as [-> | _].
  { rewrite AddKite_unregistered by done. eexists. split; [done |].
    rewrite Ht, sends_app. done. }
  destruct (String.eqb_spec (protocol.PubResponse_Action r) protocol.RemoveKite)
    as [-> | _].
  { rewrite RemoveKite_unregistered by done. eexists. split; [done |].
    rewrite Ht, sends_app. done. }
  destruct (String.eqb_spec (protocol.PubResponse_Action r) protocol.UpdateKite)
    as [-> | _].
  { eexists. split; [done |]. simpl. rewrite Ht, sends_app. done. }
  destruct (String.eqb (protocol.PubResponse_Action r) "ping").
  - destruct (InitializeKite_unregistered W _ Hunreg)
      as (s' & Hi & _ & _ & rest & Ht' & Hs).
    exists s'. split; [done |].
    rewrite Ht', Ht, !sends_app, Hs. unfold register_payload.
    rewrite Hrq, Hm. simpl. by rewrite <- app_assoc.
  - eexists. split; [done |]. rewrite Ht, sends_app. done.
Qed.

Lemma AddKite_registry r s :
  ∃ s', AddKite r s = Done (tt, s') ∧
        (∃ rest, trace s' = trace s ++ rest) ∧
        (kites s' = kites s ∨ Registered (self s) = true).
Proof.
  unfold AddKite, SetPeers, bind, get, modify, ret. simpl.
  destruct (Registered (self s)); simpl; eexists; (split; [reflexivity |]).
  - simpl. split; [by eexists | by right].
  - split; [| by left]. exists []. by rewrite app_nil_r.
Qed.

Lemma RemoveKite_registry r s :
  ∃ s', RemoveKite r s = Done (tt, s') ∧
        trace s' = trace s ∧
        (kites s' = kites s ∨ Registered (self s) = true).
Proof.
  unfold RemoveKite, bind, get, modify, ret. simpl.
  destruct (Registered (self s)); simpl; eexists; (split; [reflexivity |]);
    (split; [done |]); [by right | by left].
Qed.

Lemma handle_total W msg r s :
  json_Unmarshal_PubResponse W msg = inl r →
  ∃ s' rest,
    handle W msg s = Done (tt, s') ∧
    trace s' = trace (after_Pong W s) ++ rest ∧
    (kites s' = kites s ∨
     (protocol.PubResponse_Action r = protocol.AddKite ∨
      protocol.PubResponse_Action r = protocol.RemoveKite) ∧
     Registered (self (after_Pong W s)) = true).
Proof.
  intros Hd. rewrite (handle_decoded _ _ _ _ Hd). simpl.
  destruct (after_Pong_frame W s) as (Hk & _).
  destruct (String.eqb_spec (protocol.PubResponse_Action r) protocol.AddKite)
    as [Ha | _].
  { destruct (AddKite_registry r (after_Pong W s))
      as (s' & Heq & (rest & Ht) & [Hsame | Hreg]);
      exists s', rest; split_and!; try done.
    - left. by rewrite Hsame.
    - right. split; [by left | done]. }
  destruct (String.eqb_spec (protocol.PubResponse_Action r) protocol.RemoveKite)
    as [Ha | _].
  { destruct (RemoveKite_registry r (after_Pong W s))
      as (s' & Heq & Ht & [Hsame | Hreg]);
      exists s', []; rewrite app_nil_r; split_and!; try done.
    - left. by rewrite Hsame.
    - right. split; [by right | done]. }
  destruct (String.eqb (protocol.PubResponse_Action r) protocol.UpdateKite).
  { do 2 eexists. split; [done |]. simpl. split; [by rewrite app_nil_r |].
    by left. }
  destruct (String.eqb (protocol.PubResponse_Action r) "ping").
  - destruct (Registered (self (after_Pong W s))) eqn:Hreg.
    + rewrite InitializeKite_registered by done.
      exists (after_Pong W s), []. rewrite app_nil_r.
      split_and!; try done. by left.
    + destruct (InitializeKite_unregistered W _ Hreg)
        as (s' & Hi & Hk' & _ & rest & Ht' & _).
      exists s', rest. split_and!; try done. left. by rewrite Hk', Hk.
  - exists (after_Pong W s), []. rewrite app_nil_r.
    split_and!; try done. by left.
Qed.



(** C10. While the node is not registered, an addKite or removeKite
    broadcast leaves the peer registry as it is: [AddKite] and [RemoveKite]
    return at once. A broadcast of either action that does change the
    registry was handled by a node that was registered and whose pong was
    not answered with UPDATE. *)
Theorem C10_unregistered_registry_untouched
    (W : World) (msg : bytes) (r : protocol.PubResponse) (s : State) :
  json_Unmarshal_PubResponse W msg = inl r →
  protocol.PubResponse_Action r = protocol.AddKite ∨
  protocol.PubResponse_Action r = protocol.RemoveKite →
  ∃ s',
    handle W msg s = Done (tt, s') ∧
    (Registered (self s) = false →
     kites s' = kites s ∧
     AddKite r s = Done (tt, s) ∧ RemoveKite r s = Done (tt, s)) ∧
    (kites s' ≠ kites s →
     Registered (self s) = true ∧
     Messenger_Send W (trace s) (pong_payload W (self s)) ≠ "UPDATE").
Proof.
  intros Hd Hact.
  destruct (handle_total W msg r s Hd) as (s' & rest & Hh & _ & Hchg).
  destruct (after_Pong_frame W s) as (_ & _ & _ & _ & _ & _ & _ & Hun & Hre).
  exists s'. split; [done |]. split.
  - intros Hreg. split_and!.
    + destruct Hchg as [Hsame | (_ & Ht)]; [done |].
      rewrite (Hun Hreg) in Ht. done.
    + by apply AddKite_unregistered.
    + by apply RemoveKite_unregistered.
  - intros Hne. destruct Hchg as [Hsame | (_ & Ht)]; [done |]. by apply Hre.
Qed.

Lemma C10_unregistered_registry_untouched_witness :
  let W := sample_world "ok" true connected in
  let s := sample_state false balancer.New in
  let r := {| protocol.PubResponse_Base := sample_base "u/fs" "a:9" "x9";
              protocol.PubResponse_Action := "addKite" |} in
  json_Unmarshal_PubResponse W "addKite" = inl r ∧
  (protocol.PubResponse_Action r = protocol.AddKite ∨
   protocol.PubResponse_Action r = protocol.RemoveKite) ∧
  ∃ s',
    handle W "addKite" s = Done (tt, s') ∧
    (Registered (self s) = false →
     kites s' = kites s ∧
     AddKite r s = Done (tt, s) ∧ RemoveKite r s = Done (tt, s)) ∧
    (kites s' ≠ kites s →
     Registered (self s) = true ∧
     Messenger_Send W (trace s) (pong_payload W (self s)) ≠ "UPDATE").
Proof.
  intros W s r.
  assert (json_Unmarshal_PubResponse W "addKite" = inl r) as H1 by reflexivity.
  assert (protocol.PubResponse_Action r = protocol.AddKite ∨
          protocol.PubResponse_Action r = protocol.RemoveKite) as H2
    by (left; reflexivity).
  split_and!; [done.. |].
  apply (C10_unregistered_registry_untouched W "addKite" r s H1 H2).
Defined.

(** C4, as the code has it. Handling an updateKite broadcast leaves the node
    unregistered whatever it was before. Of the broadcasts that may follow,
    only one with action ping makes the node register again: it sends its
    pong and then the registration request, once (the request being
    encodable); a broadcast of any other action sends the pong only. *)
Theorem C4_updateKite_then_ping
    (W : World) (msg : bytes) (r : protocol.PubResponse) (s : State) :
  json_Unmarshal_PubResponse W msg = inl r →
  protocol.PubResponse_Action r = protocol.UpdateKite →
  ∃ s1,
    handle W msg s = Done (tt, s1) ∧
    Registered (self s1) = false ∧
    ∀ msg' r',
      json_Unmarshal_PubResponse W msg' = inl r' →
      (json_Marshal W (register_request (self s1))).2 = None →
      ∃ s2,
        handle W msg' s1 = Done (tt, s2) ∧
        sends (trace s2) =
          sends (trace s1) ++ pong_payload W (self s1) ::
            (if String.eqb (protocol.PubResponse_Action r') "ping"
             then [register_payload W (self s1)] else []).
Proof.
  intros Hd Ha.
  pose proof (handle_decoded W msg r s Hd) as Hh. simpl in Hh.
  rewrite Ha in Hh. simpl in Hh.
  eexists. split; [exact Hh |]. split; [done |].
  intros msg' r' Hd' Hm.
  by apply handle_unregistered_sends.
Qed.

Lemma C4_updateKite_then_ping_witness :
  let W := sample_world "allow" true connected in
  let s := sample_state true balancer.New in
  let r := {| protocol.PubResponse_Base := sample_base "u/fs" "a:9" "x9";
              protocol.PubResponse_Action := "updateKite" |} in
  json_Unmarshal_PubResponse W "updateKite" = inl r ∧
  protocol.PubResponse_Action r = protocol.UpdateKite ∧
  ∃ s1,
    handle W "updateKite" s = Done (tt, s1) ∧
    Registered (self s1) = false ∧
    ∀ msg' r',
      json_Unmarshal_PubResponse W msg' = inl r' →
      (json_Marshal W (register_request (self s1))).2 = None →
      ∃ s2,
        handle W msg' s1 = Done (tt, s2) ∧
        sends (trace s2) =
          sends (trace s1) ++ pong_payload W (self s1) ::
            (if String.eqb (protocol.PubResponse_Action r') "ping"
             then [register_payload W (self s1)] else []).
Proof.
  intros W s r.
  assert (json_Unmarshal_PubResponse W "updateKite" = inl r) as H1
    by reflexivity.
  assert (protocol.PubResponse_Action r = protocol.UpdateKite) as H2
    by reflexivity.
  split_and!; [done.. |].
  apply (C4_updateKite_then_ping W "updateKite" r s H1 H2).
Defined.

(** C4, as stated, fails: after an updateKite broadcast has cleared the
    flag, an addKite broadcast is handled without any registration request
    being sent, where the claim has exactly one. *)
Lemma C4_counterexample :
  let W := sample_world "allow" true connected in
  let s := sample_state true balancer.New in
  ∃ s1 s2,
    handle W "updateKite" s = Done (tt, s1) ∧
    Registered (self s1) = false ∧
    handle W "addKite" s1 = Done (tt, s2) ∧
    Registered (self s2) = false ∧
    register_sends W (self s1) (trace s2) = register_sends W (self s1) (trace s1) ∧
    register_sends W (self s1) (trace s2)
      ≠ S (register_sends W (self s1) (trace s1)).
Proof.
  intros W s. do 2 eexists.
  split; [vm_compute; reflexivity |].
  split; [reflexivity |].
  split; [vm_compute; reflexivity |].
  split; [reflexivity |].
  split; [vm_compute; reflexivity | vm_compute; discriminate].
Qed.

(** C9, as the code has it. The coordinator's answer to the registration
    request decides the attempt: allow gives a nil error, and the node
    starts its server and is registered; deny gives the error "no
    permission to run" and any other result the error "got a nonstandard
    response". In both failing cases the attempt ends there, with the one
    request sent and the node left unregistered, so that the next ping
    broadcast makes a new attempt. *)
Theorem C9_registration_outcome
    (W : World) (s : State) (msg : bytes) (resp : protocol.RegisterResponse) :
  Registered (self s) = false →
  json_Marshal W (register_request (self s)) = (msg, None) →
  json_Unmarshal_RegisterResponse W (Messenger_Send W (trace s) msg)
    = inl resp →
  let s1 := record (EvSend msg (Messenger_Send W (trace s) msg)) s in
  (protocol.Result resp = protocol.AllowKite →
   RegisterToKontrol W s = Done (None, s1) ∧
   ∃ s2, InitializeKite W s = Done (tt, s2) ∧
         Registered (self s2) = true ∧ OnceServer (self s2) = true ∧
         sends (trace s2) = sends (trace s) ++ [msg]) ∧
  (protocol.Result resp = protocol.PermitKite →
   RegisterToKontrol W s = Done (Some (errors_New "no permission to run"), s1) ∧
   InitializeKite W s = Done (tt, s1)) ∧
  (protocol.Result resp ≠ protocol.AllowKite →
   protocol.Result resp ≠ protocol.PermitKite →
   RegisterToKontrol W s
     = Done (Some (errors_New "got a nonstandard response"), s1) ∧
   InitializeKite W s = Done (tt, s1)) ∧
  (protocol.Result resp ≠ protocol.AllowKite →
   ∀ ping r,
     json_Unmarshal_PubResponse W ping = inl r →
     protocol.PubResponse_Action r = "ping" →
     ∃ s2, handle W ping s1 = Done (tt, s2) ∧
           sends (trace s2) =
             sends (trace s1) ++ [pong_payload W (self s); msg]).
Proof.
  intros Hreg Hm Hu s1.
  pose proof (RegisterToKontrol_cases W s msg resp Hm Hu) as Hr.
  fold s1 in Hr.
  assert (∀ e, RegisterToKontrol W s = Done (Some e, s1) →
               InitializeKite W s = Done (tt, s1)) as Hfail.
  { intros e He. unfold InitializeKite, bind at 1, get at 1. rewrite Hreg.
    unfold bind. by rewrite He. }
  split_and!.
  - intros Hres. rewrite Hres in Hr. simpl in Hr. split; [done |].
    unfold InitializeKite, bind at 1, get at 1. rewrite Hreg.
    unfold bind at 1. rewrite Hr.
    unfold OnceServer_Do, bind, get, modify, ret. simpl.
    destruct (OnceServer (self s)) eqn:Hos; eexists; (split; [reflexivity |]);
      simpl; split_and!; try done; rewrite ?sends_app; simpl.
    all: by rewrite ?app_nil_r.
  - intros Hres. rewrite Hres in Hr. simpl in Hr. split; [done |].
    by eapply Hfail.
  - intros H1 H2.
    destruct (String.eqb_spec (protocol.Result resp) protocol.AllowKite);
      [done |].
    destruct (String.eqb_spec (protocol.Result resp) protocol.PermitKite);
      [done |].
    split; [done |]. by eapply Hfail.
  - intros H1 ping r Hd Hping.
    destruct (handle_unregistered_sends W ping r s1 Hd) as (s2 & Hh & Hs).
    + done.
    + simpl. by rewrite Hm.
    + exists s2. split; [done |]. rewrite Hs, Hping. simpl.
      unfold register_payload. simpl. by rewrite Hm.
Qed.

Lemma C9_registration_outcome_witness :
  let W := sample_world "deny" true connected in
  let s := sample_empty_state false in
  let msg := "register u/me" in
  let resp := {| protocol.Result := "deny" |} in
  let s1 := record (EvSend msg (Messenger_Send W (trace s) msg)) s in
  Registered (self s) = false ∧
  json_Marshal W (register_request (self s)) = (msg, None) ∧
  json_Unmarshal_RegisterResponse W (Messenger_Send W (trace s) msg)
    = inl resp ∧
  (protocol.Result resp = protocol.AllowKite →
   RegisterToKontrol W s = Done (None, s1) ∧
   ∃ s2, InitializeKite W s = Done (tt, s2) ∧
         Registered (self s2) = true ∧ OnceServer (self s2) = true ∧
         sends (trace s2) = sends (trace s) ++ [msg]) ∧
  (protocol.Result resp = protocol.PermitKite →
   RegisterToKontrol W s = Done (Some (errors_New "no permission to run"), s1) ∧
   InitializeKite W s = Done (tt, s1)) ∧
  (protocol.Result resp ≠ protocol.AllowKite →
   protocol.Result resp ≠ protocol.PermitKite →
   RegisterToKontrol W s
     = Done (Some (errors_New "got a nonstandard response"), s1) ∧
   InitializeKite W s = Done (tt, s1)) ∧
  (protocol.Result resp ≠ protocol.AllowKite →
   ∀ ping r,
     json_Unmarshal_PubResponse W ping = inl r →
     protocol.PubResponse_Action r = "ping" →
     ∃ s2, handle W ping s1 = Done (tt, s2) ∧
           sends (trace s2) =
             sends (trace s1) ++ [pong_payload W (self s); msg]).
Proof.
  intros W s msg resp s1.
  assert (Registered (self s) = false) as H1 by reflexivity.
  assert (json_Marshal W (register_request (self s)) = (msg, None)) as H2
    by reflexivity.
  assert (json_Unmarshal_RegisterResponse W (Messenger_Send W (trace s) msg)
          = inl resp) as H3 by reflexivity.
  split_and!; [done.. | | | |];
    apply (C9_registration_outcome W s msg resp H1 H2 H3).
Defined.

(** C9, as stated, fails: a denied registration is not final. With a
    coordinator that answers deny, the first ping broadcast sends the
    registration request, which is denied, and the second ping broadcast
    sends it again. *)
Lemma C9_counterexample :
  let W := sample_world "deny" true connected in
  let s := sample_empty_state false in
  ∃ s0 s1 s2,
    RegisterToKontrol W s
      = Done (Some (errors_New "no permission to run"), s0) ∧
    handle W "ping" s = Done (tt, s1) ∧
    register_sends W (self s) (trace s1) = 1%nat ∧
    handle W "ping" s1 = Done (tt, s2) ∧
    register_sends W (self s) (trace s2) = 2%nat.
Proof.
  intros W s. do 3 eexists.
  split; [vm_compute; reflexivity |].
  split; [vm_compute; reflexivity |].
  split; [vm_compute; reflexivity |].
  split; [vm_compute; reflexivity |].
  vm_compute; reflexivity.
Qed.

(** ** The asynchronous call *)








(** * Further properties *)

(** ** The registry *)

Lemma peers_List_elem (m : gmap string models.Kite) (r : models.Kite) :
  r ∈ peers.List m ↔ ∃ addr, m !! addr = Some r.
Proof.
  unfold peers.List. rewrite list_elem_of_fmap. split.
  - intros ([a r'] & -> & H). exists a. by apply elem_of_map_to_list.
  - intros (a & H). exists (a, r). split; [done |].
    by apply elem_of_map_to_list.
Qed.

Lemma peers_List_length (m : gmap string models.Kite) :
  length (peers.List m) = size m.
Proof. unfold peers.List. by rewrite length_fmap, length_map_to_list. Qed.

Lemma group_elem kite (m : gmap string models.Kite) r :
  r ∈ group kite m ↔ models.Kitename r = kite ∧ ∃ addr, m !! addr = Some r.
Proof.
  unfold group. rewrite list_elem_of_filter, peers_List_elem. tauto.
Qed.

(** X1. On a registry that is not empty, [RemoteKites] returns exactly the
    entries whose kite name is the requested one, each as often as the
    registry lists it, and leaves the state alone. *)
Theorem X1_RemoteKites_members
    (kite : string) (s s' : State) (l : list models.Kite) :
  RemoteKites kite s = Done (l, s') →
  s' = s ∧
  l = filter (λ r, models.Kitename r = kite) (peers.List (kites s)) ∧
  (∀ r, r ∈ l ↔
        models.Kitename r = kite ∧ ∃ addr, kites s !! addr = Some r) ∧
  (length l ≤ size (kites s))%nat ∧
  kites s ≠ ∅.
Proof.
  intros HR. apply RemoteKites_Done in HR as (-> & -> & Hlen).
  split_and!; try done.
  - intros r. apply group_elem.
  - unfold group. rewrite <- peers_List_length. apply length_filter.
  - intros He. rewrite He in Hlen. unfold peers.List in Hlen.
    rewrite map_to_list_empty in Hlen. simpl in Hlen. lia.
Qed.

Lemma X1_RemoteKites_members_witness :
  let s := sample_state true balancer.New in
  let l := group "u/fs" sample_registry in
  RemoteKites "u/fs" s = Done (l, s) ∧
  s = s ∧
  l = filter (λ r, models.Kitename r = "u/fs") (peers.List (kites s)) ∧
  (∀ r, r ∈ l ↔
        models.Kitename r = "u/fs" ∧ ∃ addr, kites s !! addr = Some r) ∧
  (length l ≤ size (kites s))%nat ∧
  kites s ≠ ∅.
Proof.
  intros s l.
  assert (RemoteKites "u/fs" s = Done (l, s)) as H1 by (vm_compute; reflexivity).
  split; [done |].
  apply (X1_RemoteKites_members "u/fs" s s l H1).
Defined.

(** X2. A resolution by [roundRobin] touches nothing but the balancer's
    index of the requested group. When it fails, the state is unchanged and
    the registry holds no member of the group; when it succeeds, the peer it
    returns is an entry of the registry and bears the requested name. *)
Theorem X2_roundRobin_returns_group_member
    (kite : string) (s s' : State)
    (r : option models.Kite) (err : option error) :
  roundRobin kite s = Done ((r, err), s') →
  kites s' = kites s ∧ self s' = self s ∧ trace s' = trace s ∧
  (∀ g, g ≠ kite → balance s' !! g = balance s !! g) ∧
  match err with
  | Some e =>
      r = None ∧ s' = s ∧
      e = fmt_Errorf ("kite " +:+ kite +:+ " does not exist") ∧
      ∀ x addr, kites s !! addr = Some x → models.Kitename x ≠ kite
  | None =>
      ∃ x addr, r = Some x ∧ models.Kitename x = kite ∧
                kites s !! addr = Some x
  end.
Proof.
  intros Hrr. unfold roundRobin, bind in Hrr.
  destruct (RemoteKites kite s) as [[l s0] | why] eqn:HR; [| done].
  apply RemoteKites_Done in HR as (-> & -> & Hlen).
  destruct (Z.eqb_spec (Z.of_nat (length (group kite (kites s)))) 0) as [Hz | Hz].
  - inversion Hrr; subst. split_and!; try done.
    intros x addr Hx Hname.
    assert (x ∈ group kite (kites s')) as Hin
      by (apply group_elem; eauto).
    destruct (group kite (kites s')); [by apply not_elem_of_nil in Hin |].
    simpl in Hz. lia.
  - unfold get, modify, slice_index, ret, panic in Hrr. simpl in Hrr.
    destruct (_ <? 0); [done |].
    destruct (group kite (kites s) !! _) as [x |] eqn:Hx; [| done].
    inversion Hrr; subst. simpl. split_and!; try done.
    + intros g Hg. unfold balancer.AddOrUpdateIndex.
      by rewrite lookup_insert_ne.
    + apply list_elem_of_lookup_2 in Hx. apply group_elem in Hx as (? & a & ?).
      by exists x, a.
Qed.

Lemma X2_roundRobin_returns_group_member_witness :
  let s := sample_state true balancer.New in
  let r := sample_peer "u/fs" "a:1" "x1" in
  let s' := set_balance (balancer.AddOrUpdateIndex "u/fs" 1 balancer.New) s in
  roundRobin "u/fs" s = Done ((Some r, None), s') ∧
  kites s' = kites s ∧ self s' = self s ∧ trace s' = trace s ∧
  (∀ g, g ≠ "u/fs" → balance s' !! g = balance s !! g) ∧
  ∃ x addr, Some r = Some x ∧ models.Kitename x = "u/fs" ∧
            kites s !! addr = Some x.
Proof.
  intros s r s'.
  assert (roundRobin "u/fs" s = Done ((Some r, None), s')) as H1
    by (vm_compute; reflexivity).
  split; [done |].
  apply (X2_roundRobin_returns_group_member "u/fs" s s' (Some r) None H1).
Defined.

Lemma registry_keyed_empty : registry_keyed peers.New.
Proof. intros a r. unfold peers.New. by rewrite lookup_empty. Qed.

Lemma registry_keyed_Add kite (m : gmap string models.Kite) :
  registry_keyed m → registry_keyed (peers.Add kite m).
Proof.
  intros Hk a r. unfold peers.Add. rewrite lookup_insert. case_decide.
  - intros [= <-]. done.
  - apply Hk.
Qed.


Lemma dials_append t1 t2 : dials (t1 ++ t2) = (dials t1 + dials t2)%nat.
Proof. unfold dials. by rewrite omap_app, length_app. Qed.

Lemma serves_append t1 t2 : serves (t1 ++ t2) = (serves t1 + serves t2)%nat.
Proof. unfold serves. by rewrite omap_app, length_app. Qed.

(** What a dial adds to the trace: one connection attempt, nothing for the
    Messenger. *)
Lemma dialClient_trace W kite s :
  ∃ client err s' rest,
    dialClient W kite s = Done ((client, err), s') ∧
    kites s' = kites s ∧ balance s' = balance s ∧ self s' = self s ∧
    trace s' = trace s ++ rest ∧
    sends rest = [] ∧ dials rest = 1%nat ∧ serves rest = 0%nat ∧
    calls rest = 0%nat ∧
    (err = None → client ≠ None) ∧ (err ≠ None → client = None).
Proof.
  pose proof (dialClient_cases W kite s) as H. simpl in H.
  destruct (net_Dial W (trace s) (models.Addr kite)) as [conn | e].
  - destruct (http_ReadResponse W _ conn) as [resp | e].
    + destruct (String.eqb (Status resp) connected);
        do 3 eexists; eexists (_ :: _); (split; [exact H |]);
        simpl; rewrite <- ?app_assoc; simpl; split_and!; done.
    + do 3 eexists; eexists (_ :: _); (split; [exact H |]);
        simpl; rewrite <- ?app_assoc; simpl; split_and!; done.
  - do 3 eexists; eexists [_]; (split; [exact H |]); split_and!; done.
Qed.

(** The three ways a resolution goes on after [roundRobin]. *)
Lemma getRemoteKite_failed W kite s e s1 r :
  roundRobin kite s = Done ((r, Some e), s1) →
  getRemoteKite W kite s = Done ((None, Some e), s1).
Proof. intros H. unfold getRemoteKite, bind. by rewrite H. Qed.

Lemma getRemoteKite_cached W kite s r c s1 :
  roundRobin kite s = Done ((Some r, None), s1) →
  models.Client r = Some c →
  getRemoteKite W kite s = Done ((Some r, None), s1).
Proof. intros H Hc. unfold getRemoteKite, bind. by rewrite H, Hc. Qed.

Lemma getRemoteKite_dialled W kite s r s1 client err s2 :
  roundRobin kite s = Done ((Some r, None), s1) →
  models.Client r = None →
  dialClient W r s1 = Done ((client, err), s2) →
  getRemoteKite W kite s =
    match err with
    | Some e => Done ((None, Some e), s2)
    | None =>
        Done ((Some (models.set_Client client r), None),
              set_kites (peers.Add (models.set_Client client r) (kites s2)) s2)
    end.
Proof.
  intros H Hc Hd. unfold getRemoteKite, bind. rewrite H, Hc, Hd.
  by destruct err.
Qed.

(** Where the registry lists its members, a resolution does not panic, and
    what it returns is either an error or a peer of the group that carries
    a connection and is the registry's entry under its address. *)
Lemma getRemoteKite_post W kite s l :
  balance_ok (balance s) →
  registry_keyed (kites s) →
  RemoteKites kite s = Done (l, s) →
  ∃ r err s' rest,
    getRemoteKite W kite s = Done ((r, err), s') ∧
    balance_ok (balance s') ∧ registry_keyed (kites s') ∧
    self s' = self s ∧
    trace s' = trace s ++ rest ∧
    sends rest = [] ∧ (dials rest ≤ 1)%nat ∧ serves rest = 0%nat ∧
    calls rest = 0%nat ∧
    dom (kites s') = dom (kites s) ∧
    match err with
    | Some e => r = None ∧ kites s' = kites s
    | None =>
        ∃ x c, r = Some x ∧ models.Client x = Some c ∧
               models.Kitename x = kite ∧
               kites s' !! models.Addr x = Some x
    end.
Proof.
  intros Hok Hkey HR.
  destruct l as [| r0 l0].
  { exists None, (Some (fmt_Errorf ("kite " +:+ kite +:+ " does not exist"))),
      s, [].
    rewrite (getRemoteKite_failed W kite s _ s None (roundRobin_unknown _ _ HR)).
    rewrite app_nil_r. split_and!; try done. unfold dials. simpl. lia. }
  destruct (roundRobin_select kite s (r0 :: l0)) as (x & Hx & Hrr); [done.. |].
  set (s1 := set_balance _ s) in Hrr.
  destruct (roundRobin_balance_ok _ _ _ _ Hok Hrr) as (Hok1 & Hk1 & Hs1 & Ht1).
  apply list_elem_of_lookup_2 in Hx.
  apply RemoteKites_Done in HR as (_ & Hl & _). rewrite Hl in Hx.
  apply group_elem in Hx as (Hname & a & Ha).
  pose proof (Hkey a x Ha) as Haddr. subst a.
  destruct (models.Client x) as [c |] eqn:Hc.
  - exists (Some x), None, s1, [].
    rewrite (getRemoteKite_cached W kite s x c s1 Hrr Hc), app_nil_r.
    split_and!; try done; [unfold dials; simpl; lia |]. by exists x, c.
  - destruct (dialClient_trace W x s1)
      as (client & err & s2 & rest & Hd & Hk2 & Hb2 & Hs2 & Ht2 & Hsn & Hdl
          & Hsv & Hcl & Hsome & Hnone).
    rewrite (getRemoteKite_dialled W kite s x s1 client err s2 Hrr Hc Hd).
    destruct err as [e |].
    + exists None, (Some e), s2, rest.
      split_and!; try done; try lia; by rewrite ?Hb2, ?Hk2, ?Hs2, ?Ht2, ?Ht1.
    + destruct client as [c |]; [| by destruct Hsome].
      eexists (Some _), None, _, rest. split; [reflexivity |]. simpl.
      split_and!; try done; try lia;
        try (by rewrite ?Hb2, ?Hk2, ?Hs2, ?Ht2, ?Ht1).
      * apply registry_keyed_Add. by rewrite Hk2.
      * unfold peers.Add. rewrite Hk2. simpl. by apply dom_insert_lookup_L.
      * eexists _, c. split_and!; try done.
        unfold peers.Add. simpl. by rewrite lookup_insert_eq.
Qed.

Lemma RemoteKites_same_kites kite s s' l :
  kites s' = kites s →
  RemoteKites kite s = Done (l, s) →
  RemoteKites kite s' = Done (l, s').
Proof.
  intros Hk HR. rewrite RemoteKites_unfold in *. rewrite Hk.
  destruct (_ || _); [done |]. by inversion HR.
Qed.

(** Replacing the only member of a group by a record of the same name leaves
    a group of that record alone. *)
Lemma group_replace_single kite (m : gmap string models.Kite) addr r r' :
  m !! addr = Some r →
  group kite m = [r] →
  models.Kitename r' = kite →
  group kite (<[addr := r']> m) = [r'] ∧
  length (peers.List (<[addr := r']> m)) = length (peers.List m).
Proof.
  intros Ha Hg Hname.
  set (L := (map_to_list (delete addr m)).*2).
  assert (peers.List m ≡ₚ r :: L) as HL.
  { unfold peers.List, L. rewrite <- (map_to_list_delete m addr r Ha). done. }
  assert (peers.List (<[addr := r']> m) ≡ₚ r' :: L) as HL'.
  { unfold peers.List, L. rewrite <- insert_delete_eq.
    rewrite map_to_list_insert by apply lookup_delete_eq. done. }
  assert (models.Kitename r = kite) as Hr.
  { assert (r ∈ group kite m) as Hin by (rewrite Hg; apply list_elem_of_here).
    by apply group_elem in Hin as (? & _). }
  assert (filter (λ x, models.Kitename x = kite) L = []) as Hnil.
  { assert (group kite m ≡ₚ r :: filter (λ x, models.Kitename x = kite) L)
      as Hp.
    { unfold group. rewrite HL, filter_cons. by rewrite decide_True. }
    rewrite Hg in Hp. apply Permutation_length in Hp. simpl in Hp.
    destruct (filter _ L); [done | simpl in Hp; lia]. }
  split.
  - assert (group kite (<[addr := r']> m) ≡ₚ [r']) as Hp.
    { unfold group. rewrite HL', filter_cons, decide_True by done.
      by rewrite Hnil. }
    by apply Permutation_singleton_r in Hp.
  - rewrite (Permutation_length HL), (Permutation_length HL'). done.
Qed.

(** X3. Where the registry lists its members, a resolution by
    [getRemoteKite] does not panic, connects at most once and sends nothing
    to the Messenger. On success the peer it returns bears the requested
    name, carries a connection and is the registry's entry under its own
    address; on failure the registry is unchanged. Either way the registry
    keeps its set of addresses and the state invariants hold afterwards. *)
Theorem X3_getRemoteKite_postcondition
    (W : World) (kite : string) (s : State) (l : list models.Kite) :
  balance_ok (balance s) →
  registry_keyed (kites s) →
  RemoteKites kite s = Done (l, s) →
  ∃ r err s' rest,
    getRemoteKite W kite s = Done ((r, err), s') ∧
    balance_ok (balance s') ∧ registry_keyed (kites s') ∧
    self s' = self s ∧
    trace s' = trace s ++ rest ∧
    sends rest = [] ∧ (dials rest ≤ 1)%nat ∧ serves rest = 0%nat ∧
    calls rest = 0%nat ∧
    dom (kites s') = dom (kites s) ∧
    match err with
    | Some e => r = None ∧ kites s' = kites s
    | None =>
        ∃ x c, r = Some x ∧ models.Client x = Some c ∧
               models.Kitename x = kite ∧
               kites s' !! models.Addr x = Some x
    end.
Proof. apply getRemoteKite_post. Qed.

Lemma sample_registry_keyed : registry_keyed sample_registry.
Proof.
  unfold sample_registry.
  repeat apply registry_keyed_Add. apply registry_keyed_empty.
Qed.

Lemma X3_getRemoteKite_postcondition_witness :
  let W := sample_world "" true connected in
  let s := sample_state true balancer.New in
  let l := group "u/fs" sample_registry in
  balance_ok (balance s) ∧ registry_keyed (kites s) ∧
  RemoteKites "u/fs" s = Done (l, s) ∧
  ∃ r err s' rest,
    getRemoteKite W "u/fs" s = Done ((r, err), s') ∧
    balance_ok (balance s') ∧ registry_keyed (kites s') ∧
    self s' = self s ∧
    trace s' = trace s ++ rest ∧
    sends rest = [] ∧ (dials rest ≤ 1)%nat ∧ serves rest = 0%nat ∧
    calls rest = 0%nat ∧
    dom (kites s') = dom (kites s) ∧
    match err with
    | Some e => r = None ∧ kites s' = kites s
    | None =>
        ∃ x c, r = Some x ∧ models.Client x = Some c ∧
               models.Kitename x = "u/fs" ∧
               kites s' !! models.Addr x = Some x
    end.
Proof.
  intros W s l.
  assert (balance_ok (balance s)) as H1 by apply balance_ok_empty.
  assert (registry_keyed (kites s)) as H2 by apply sample_registry_keyed.
  assert (RemoteKites "u/fs" s = Done (l, s)) as H3 by (vm_compute; reflexivity).
  split_and!; [done.. |].
  apply (X3_getRemoteKite_postcondition W "u/fs" s l H1 H2 H3).
Defined.

(** X4. A dial that fails still uses up the round-robin turn: the failed
    resolution leaves the balancer at the index of the peer it could not
    reach and the registry as it was, so the next resolution moves on to the
    peer after it. *)
Theorem X4_failed_dial_advances
    (W : World) (kite : string) (s s2 : State) (l : list models.Kite)
    (r : models.Kite) (e : error) :
  balance_ok (balance s) →
  RemoteKites kite s = Done (l, s) →
  let len := Z.of_nat (length l) in
  let n := (balancer.GetIndex kite (balance s) + 1) mod len in
  l !! Z.to_nat n = Some r →
  models.Client r = None →
  dialClient W r
    (set_balance (balancer.AddOrUpdateIndex kite n (balance s)) s)
  = Done ((None, Some e), s2) →
  getRemoteKite W kite s = Done ((None, Some e), s2) ∧
  balancer.GetIndex kite (balance s2) = n ∧
  kites s2 = kites s ∧
  ∃ r' s3,
    l !! Z.to_nat ((n + 1) mod len) = Some r' ∧
    roundRobin kite s2 = Done ((Some r', None), s3).
Proof.
  intros Hok HR len n Hr Hc Hd.
  assert (l ≠ []) as Hl by (intros ->; done).
  destruct (roundRobin_select kite s l Hok HR Hl) as (r0 & Hr0 & Hrr).
  fold len n in Hr0, Hrr. rewrite Hr in Hr0. inversion Hr0; subst r0.
  destruct (roundRobin_balance_ok _ _ _ _ Hok Hrr) as (Hok1 & _).
  destruct (dialClient_frame W r
              (set_balance (balancer.AddOrUpdateIndex kite n (balance s)) s))
    as (client' & err' & s2' & Hd' & Hk & Hb & _).
  rewrite Hd in Hd'. inversion Hd'; subst client' err' s2'.
  simpl in Hk, Hb.
  pose proof (getRemoteKite_dialled W kite s r _ None (Some e) s2 Hrr Hc Hd)
    as Hg. simpl in Hg.
  assert (balancer.GetIndex kite (balance s2) = n) as Hidx
    by (rewrite Hb; apply GetIndex_update).
  split_and!; try done.
  assert (balance_ok (balance s2)) as Hok2 by (by rewrite Hb).
  pose proof (RemoteKites_same_kites kite s s2 l Hk HR) as HR2.
  destruct (roundRobin_select kite s2 l Hok2 HR2 Hl) as (r' & Hr' & Hrr').
  rewrite Hidx in Hr', Hrr'. fold len in Hr', Hrr'.
  by exists r', (set_balance
                  (balancer.AddOrUpdateIndex kite ((n + 1) mod len)
                     (balance s2)) s2).
Qed.

Lemma X4_failed_dial_advances_witness :
  let W := sample_world "" false connected in
  let s := sample_state true balancer.New in
  let l := group "u/fs" sample_registry in
  let r := sample_peer "u/fs" "a:1" "x1" in
  let e := foreign_error "connection refused" in
  let s1 := set_balance (balancer.AddOrUpdateIndex "u/fs" 1 (balance s)) s in
  let s2 := record (EvDial "a:1" (inr e)) s1 in
  balance_ok (balance s) ∧
  RemoteKites "u/fs" s = Done (l, s) ∧
  getRemoteKite W "u/fs" s = Done ((None, Some e), s2) ∧
  balancer.GetIndex "u/fs" (balance s2) = 1 ∧
  kites s2 = kites s ∧
  ∃ r' s3,
    l !! Z.to_nat ((1 + 1) mod 3) = Some r' ∧
    roundRobin "u/fs" s2 = Done ((Some r', None), s3).
Proof.
  intros W s l r e s1 s2.
  assert (balance_ok (balance s)) as H1 by apply balance_ok_empty.
  assert (RemoteKites "u/fs" s = Done (l, s)) as H2 by (vm_compute; reflexivity).
  assert (l !! Z.to_nat ((balancer.GetIndex "u/fs" (balance s) + 1)
                           mod Z.of_nat (length l)) = Some r) as H3
    by (vm_compute; reflexivity).
  assert (models.Client r = None) as H4 by reflexivity.
  assert (dialClient W r
            (set_balance
               (balancer.AddOrUpdateIndex "u/fs"
                  ((balancer.GetIndex "u/fs" (balance s) + 1)
                     mod Z.of_nat (length l)) (balance s)) s)
          = Done ((None, Some e), s2)) as H5 by (vm_compute; reflexivity).
  split_and!; [done.. | | | |];
    apply (X4_failed_dial_advances W "u/fs" s s2 l r e H1 H2 H3 H4 H5).
Defined.

(** X5. A connection, once dialled, is reused. For a group of one member
    without a connection whose dial succeeds, the first resolution returns
    the member with the new connection and stores it; the second resolution
    returns the same record with the same connection and adds nothing to the
    trace: it does not dial again. *)
Theorem X5_connection_reused
    (W : World) (kite : string) (s s2 : State) (r : models.Kite)
    (c : rpc_Client) :
  balance_ok (balance s) →
  registry_keyed (kites s) →
  RemoteKites kite s = Done ([r], s) →
  models.Client r = None →
  dialClient W r (set_balance (balancer.AddOrUpdateIndex kite 0 (balance s)) s)
  = Done ((Some c, None), s2) →
  let r' := models.set_Client (Some c) r in
  let s3 := set_kites (peers.Add r' (kites s2)) s2 in
  getRemoteKite W kite s = Done ((Some r', None), s3) ∧
  ∃ s4,
    getRemoteKite W kite s3 = Done ((Some r', None), s4) ∧
    trace s4 = trace s3 ∧ kites s4 = kites s3.
Proof.
  intros Hok Hkey HR Hc Hd r' s3.
  destruct (roundRobin_select kite s [r] Hok HR) as (r0 & Hr0 & Hrr); [done |].
  simpl length in Hr0, Hrr. rewrite Z.mod_1_r in Hr0, Hrr.
  simpl in Hr0. inversion Hr0; subst r0.
  destruct (roundRobin_balance_ok _ _ _ _ Hok Hrr) as (Hok1 & _).
  destruct (dialClient_frame W r
              (set_balance (balancer.AddOrUpdateIndex kite 0 (balance s)) s))
    as (client' & err' & s2' & Hd' & Hk & Hb & _).
  rewrite Hd in Hd'. inversion Hd'; subst client' err' s2'.
  simpl in Hk, Hb.
  pose proof (getRemoteKite_dialled W kite s r _ (Some c) None s2 Hrr Hc Hd)
    as Hg. simpl in Hg.
  split; [done |].
  assert (r ∈ group kite (kites s)) as Hin.
  { apply RemoteKites_Done in HR as (_ & <- & _). apply list_elem_of_here. }
  apply group_elem in Hin as (Hname & a & Ha).
  pose proof (Hkey a r Ha) as Haddr. subst a.
  assert (group kite (kites s) = [r]) as Hgrp
    by (by apply RemoteKites_Done in HR as (_ & <- & _)).
  destruct (group_replace_single kite (kites s) (models.Addr r) r r' Ha Hgrp)
    as (Hg' & Hlen'); [done |].
  assert (kites s3 = <[models.Addr r := r']> (kites s)) as Hk3
    by (subst s3; simpl; unfold peers.Add; by rewrite Hk).
  assert (RemoteKites kite s3 = Done ([r'], s3)) as HR3.
  { apply RemoteKites_Done. split; [done |]. rewrite Hk3, Hg', Hlen'.
    split; [done |]. by apply RemoteKites_Done in HR as (_ & _ & ?). }
  assert (balance_ok (balance s3)) as Hok3 by (subst s3; simpl; by rewrite Hb).
  destruct (roundRobin_select kite s3 [r'] Hok3 HR3) as (x & Hx & Hrr3);
    [done |].
  simpl length in Hx, Hrr3. rewrite Z.mod_1_r in Hx, Hrr3.
  simpl in Hx. inversion Hx; subst x.
  eexists. split.
  - by apply (getRemoteKite_cached W kite s3 r' c _ Hrr3).
  - done.
Qed.

Lemma X5_connection_reused_witness :
  let W := sample_world "" true connected in
  let r := sample_peer "u/db" "b:1" "y1" in
  let s := sample_state true balancer.New in
  let c := rpc_NewClientWithCodec
             (NewKiteClientCodec {| conn_id := 0; conn_remote := "b:1" |}) in
  let s1 := set_balance (balancer.AddOrUpdateIndex "u/db" 0 (balance s)) s in
  let s2 := record (EvReadResponse {| conn_id := 0; conn_remote := "b:1" |}
                      (inl {| Status := connected |}))
              (record (EvWrite {| conn_id := 0; conn_remote := "b:1" |}
                         connect_request)
                 (record (EvDial "b:1"
                            (inl {| conn_id := 0; conn_remote := "b:1" |}))
                    s1)) in
  let r' := models.set_Client (Some c) r in
  let s3 := set_kites (peers.Add r' (kites s2)) s2 in
  balance_ok (balance s) ∧ registry_keyed (kites s) ∧
  RemoteKites "u/db" s = Done ([r], s) ∧
  models.Client r = None ∧
  dialClient W r s1 = Done ((Some c, None), s2) ∧
  getRemoteKite W "u/db" s = Done ((Some r', None), s3) ∧
  ∃ s4,
    getRemoteKite W "u/db" s3 = Done ((Some r', None), s4) ∧
    trace s4 = trace s3 ∧ kites s4 = kites s3.
Proof.
  intros W r s c s1 s2 r' s3.
  assert (balance_ok (balance s)) as H1 by apply balance_ok_empty.
  assert (registry_keyed (kites s)) as H2 by apply sample_registry_keyed.
  assert (RemoteKites "u/db" s = Done ([r], s)) as H3
    by (vm_compute; reflexivity).
  assert (models.Client r = None) as H4 by reflexivity.
  assert (dialClient W r s1 = Done ((Some c, None), s2)) as H5
    by (vm_compute; reflexivity).
  split_and!; [done.. | |];
    apply (X5_connection_reused W "u/db" s s2 r c H1 H2 H3 H4 H5).
Defined.

(** X6. Where the registry lists its members, [CallSync] does not panic and
    returns either a reply or an error, never both and never neither. If
    the resolution fails, no call is made and the registry is unchanged. If
    the resolution succeeds, exactly one call is made, after the resolution,
    for the method [kite.method] on the connection of a peer of the group;
    when it fails the error is "[kite] call error: " followed by the remote
    error, and the peer keeps that connection in the registry: a failed
    call neither closes nor forgets the connection. *)
Theorem X6_CallSync_outcome
    (W : World) (kite method args : string) (s : State)
    (l : list models.Kite) :
  balance_ok (balance s) →
  registry_keyed (kites s) →
  RemoteKites kite s = Done (l, s) →
  ∃ reply err s' rest tail,
    CallSync W kite method args s = Done ((reply, err), s') ∧
    (err = None ↔ reply ≠ None) ∧
    balance_ok (balance s') ∧ registry_keyed (kites s') ∧
    trace s' = (trace s ++ rest) ++ tail ∧
    calls rest = 0%nat ∧ (dials rest ≤ 1)%nat ∧
    match tail with
    | [] => reply = None ∧ err ≠ None ∧ kites s' = kites s
    | [EvCall client rpcFunc a res] =>
        rpcFunc = kite +:+ "." +:+ method ∧ a = args ∧
        res = Client_Call W (trace s ++ rest) client rpcFunc a ∧
        (∃ x, kites s' !! models.Addr x = Some x ∧
              models.Kitename x = kite ∧ models.Client x = Some client) ∧
        match res with
        | inl rep => reply = Some rep ∧ err = None
        | inr e =>
            reply = None ∧
            err = Some (fmt_Errorf
                          ("[" +:+ kite +:+ "] call error: " +:+ Error e))
        end
    | _ => False
    end.
Proof.
  intros Hok Hkey HR.
  destruct (getRemoteKite_post W kite s l Hok Hkey HR)
    as (r & err & s1 & rest & Hg & Hok1 & Hkey1 & _ & Ht & _ & Hdl & _ & Hcl
        & _ & Hres).
  unfold CallSync, bind at 1. rewrite Hg.
  destruct err as [e |].
  - destruct Hres as (-> & Hk).
    exists None, (Some e), s1, rest, []. rewrite app_nil_r.
    split_and!; try done.
  - destruct Hres as (x & c & -> & Hc & Hname & Hx). simpl. rewrite Hc.
    unfold bind, get, modify, ret. simpl. rewrite Ht.
    destruct (Client_Call W (trace s ++ rest) c (kite +:+ "." +:+ method) args)
      as [rep | e] eqn:Hcall.
    + eexists (Some rep), None, _, rest,
        [EvCall c (kite +:+ "." +:+ method) args (inl rep)].
      split; [reflexivity |]. simpl. rewrite Ht.
      split_and!; try done. by exists x.
    + eexists None, (Some _), _, rest,
        [EvCall c (kite +:+ "." +:+ method) args (inr e)].
      split; [reflexivity |]. simpl. rewrite Ht.
      split_and!; try done. by exists x.
Qed.

Lemma X6_CallSync_outcome_witness :
  let W := sample_world "" true connected in
  let s := sample_state true balancer.New in
  let l := group "u/fs" sample_registry in
  balance_ok (balance s) ∧ registry_keyed (kites s) ∧
  RemoteKites "u/fs" s = Done (l, s) ∧
  ∃ reply err s' rest tail,
    CallSync W "u/fs" "Read" "path" s = Done ((reply, err), s') ∧
    (err = None ↔ reply ≠ None) ∧
    balance_ok (balance s') ∧ registry_keyed (kites s') ∧
    trace s' = (trace s ++ rest) ++ tail ∧
    calls rest = 0%nat ∧ (dials rest ≤ 1)%nat ∧
    match tail with
    | [] => reply = None ∧ err ≠ None ∧ kites s' = kites s
    | [EvCall client rpcFunc a res] =>
        rpcFunc = "u/fs" +:+ "." +:+ "Read" ∧ a = "path" ∧
        res = Client_Call W (trace s ++ rest) client rpcFunc a ∧
        (∃ x, kites s' !! models.Addr x = Some x ∧
              models.Kitename x = "u/fs" ∧ models.Client x = Some client) ∧
        match res with
        | inl rep => reply = Some rep ∧ err = None
        | inr e =>
            reply = None ∧
            err = Some (fmt_Errorf
                          ("[" +:+ "u/fs" +:+ "] call error: " +:+ Error e))
        end
    | _ => False
    end.
Proof.
  intros W s l.
  assert (balance_ok (balance s)) as H1 by apply balance_ok_empty.
  assert (registry_keyed (kites s)) as H2 by apply sample_registry_keyed.
  assert (RemoteKites "u/fs" s = Done (l, s)) as H3 by (vm_compute; reflexivity).
  split_and!; [done.. |].
  apply (X6_CallSync_outcome W "u/fs" "Read" "path" s l H1 H2 H3).
Defined.

(** ** Broadcasts and the registry *)


Lemma RemoveKite_registered r s :
  Registered (self s) = true →
  RemoveKite r s =
    Done (tt,
          set_kites
            (peers.Remove (protocol.Uuid (protocol.PubResponse_Base r))
               (kites s)) s).
Proof. intros H. unfold RemoveKite, bind, get. simpl. by rewrite H. Qed.


(** A registered node whose pong is not answered with UPDATE is still
    registered when the action of the broadcast runs. *)
Lemma after_Pong_registered W s :
  Registered (self s) = true →
  Messenger_Send W (trace s) (pong_payload W (self s)) ≠ "UPDATE" →
  after_Pong W s =
    record (EvSend (pong_payload W (self s))
              (Messenger_Send W (trace s) (pong_payload W (self s)))) s.
Proof.
  intros _ Hne. unfold after_Pong.
  by destruct (String.eqb_spec
                 (Messenger_Send W (trace s) (pong_payload W (self s)))
                 "UPDATE").
Qed.



(** X8. A removeKite broadcast handled by a registered node (whose pong is
    not answered with UPDATE) deletes exactly the registry entries with the
    announced unique id and keeps all others as they are. Nothing but the
    pong is added to the trace: unlike [AddKite], [RemoveKite] does not give
    the cache pool a new list of peers. *)
Theorem X8_removeKite_registered
    (W : World) (msg : bytes) (r : protocol.PubResponse) (s : State) :
  json_Unmarshal_PubResponse W msg = inl r →
  protocol.PubResponse_Action r = protocol.RemoveKite →
  Registered (self s) = true →
  Messenger_Send W (trace s) (pong_payload W (self s)) ≠ "UPDATE" →
  let id := protocol.Uuid (protocol.PubResponse_Base r) in
  ∃ s',
    handle W msg s = Done (tt, s') ∧
    (∀ addr x, kites s' !! addr = Some x ↔
               kites s !! addr = Some x ∧ models.Uuid x ≠ id) ∧
    trace s' =
      trace s ++ [EvSend (pong_payload W (self s))
                    (Messenger_Send W (trace s) (pong_payload W (self s)))] ∧
    Registered (self s') = true.
Proof.
  intros Hd Ha Hreg Hne id.
  rewrite (handle_decoded _ _ _ _ Hd). simpl. rewrite Ha. simpl.
  rewrite (after_Pong_registered W s Hreg Hne).
  rewrite RemoveKite_registered by done. simpl.
  eexists. split; [reflexivity |]. simpl. split_and!; try done.
  intros addr x. unfold peers.Remove. by rewrite map_lookup_filter_Some.
Qed.

Lemma X8_removeKite_registered_witness :
  let W := sample_world "ok" true connected in
  let s := sample_state true balancer.New in
  let r := {| protocol.PubResponse_Base := sample_base "u/fs" "a:9" "x9";
              protocol.PubResponse_Action := "removeKite" |} in
  json_Unmarshal_PubResponse W "removeKite" = inl r ∧
  protocol.PubResponse_Action r = protocol.RemoveKite ∧
  Registered (self s) = true ∧
  Messenger_Send W (trace s) (pong_payload W (self s)) ≠ "UPDATE" ∧
  ∃ s',
    handle W "removeKite" s = Done (tt, s') ∧
    (∀ addr x, kites s' !! addr = Some x ↔
               kites s !! addr = Some x ∧
               models.Uuid x ≠ protocol.Uuid (protocol.PubResponse_Base r)) ∧
    trace s' =
      trace s ++ [EvSend (pong_payload W (self s))
                    (Messenger_Send W (trace s) (pong_payload W (self s)))] ∧
    Registered (self s') = true.
Proof.
  intros W s r.
  assert (json_Unmarshal_PubResponse W "removeKite" = inl r) as H1
    by reflexivity.
  assert (protocol.PubResponse_Action r = protocol.RemoveKite) as H2
    by reflexivity.
  assert (Registered (self s) = true) as H3 by reflexivity.
  assert (Messenger_Send W (trace s) (pong_payload W (self s)) ≠ "UPDATE")
    as H4 by (vm_compute; discriminate).
  split_and!; [done.. |].
  apply (X8_removeKite_registered W "removeKite" r s H1 H2 H3 H4).
Defined.



(** ** The broadcast loop *)



(** Side conditions of the lemmas below: frame equations, lengths of
    the sends and the count of server starts. *)
Ltac post_side :=
  first
    [ done
    | simpl; lia
    | intros; congruence
    | by right
    | by left
    | let H := fresh in
      intros H; unfold server_once in *; simpl;
      rewrite <- ?app_assoc, ?serves_append; simpl;
      rewrite ?H; unfold serves; simpl; lia
    | idtac ].

(** What [InitializeKite] does to the node, whatever the coordinator
    answers. *)
Lemma InitializeKite_post W s :
  ∃ s' rest,
    InitializeKite W s = Done (tt, s') ∧
    kites s' = kites s ∧ balance s' = balance s ∧
    KontrolEnabled (self s') = KontrolEnabled (self s) ∧
    trace s' = trace s ++ rest ∧
    (length (sends rest) ≤ 1)%nat ∧
    (Registered (self s) = true → rest = []) ∧
    (server_once s → server_once s') ∧
    (Registered (self s') = true →
     Registered (self s) = true ∨ OnceServer (self s') = true) ∧
    (OnceServer (self s) = true → OnceServer (self s') = true).
Proof.
  unfold InitializeKite, RegisterToKontrol, OnceServer_Do, Send, server_once,
    bind, get, modify, ret.
  simpl.
  destruct (Registered (self s)) eqn:Hreg; simpl.
  { exists s, []. rewrite app_nil_r. split_and!; post_side. }
  destruct (json_Marshal W (register_request (self s))) as [msg [e |]]; simpl.
  { exists s, []. rewrite app_nil_r. split_and!; post_side. }
  destruct (json_Unmarshal_RegisterResponse W _) as [resp | e]; simpl.
  2: { eexists _, [_]. split; [reflexivity |]. simpl.
       split_and!; post_side. }
  destruct (String.eqb (protocol.Result resp) protocol.AllowKite); simpl.
  2: { destruct (String.eqb (protocol.Result resp) protocol.PermitKite);
         simpl; eexists _, [_]; (split; [reflexivity |]); simpl;
         split_and!; post_side. }
  destruct (OnceServer (self s)) eqn:Honce; simpl.
  - eexists _, [_]. split; [reflexivity |]. simpl. rewrite ?Honce.
    split_and!; post_side.
  - eexists _, [_; _]. split; [reflexivity |]. simpl.
    rewrite <- ?app_assoc. simpl. split_and!; post_side.
Qed.



(** X10. A pong answered with UPDATE unregisters the node before the
    action of the broadcast runs: whatever the node's state was, an addKite
    or removeKite broadcast then leaves the registry as it is and the node
    unregistered, and a ping broadcast sends the registration request in
    the same handling, right after the pong. *)
Theorem X10_pong_answered_UPDATE
    (W : World) (msg : bytes) (r : protocol.PubResponse) (s : State) :
  json_Unmarshal_PubResponse W msg = inl r →
  Messenger_Send W (trace s) (pong_payload W (self s)) = "UPDATE" →
  (json_Marshal W (register_request (self s))).2 = None →
  ∃ s',
    handle W msg s = Done (tt, s') ∧
    kites s' = kites s ∧
    sends (trace s') =
      sends (trace s) ++ pong_payload W (self s) ::
        (if String.eqb (protocol.PubResponse_Action r) "ping"
         then [register_payload W (self s)] else []) ∧
    (protocol.PubResponse_Action r ≠ "ping" →
     Registered (self s') = false).
Proof.
  intros Hd Hup Hm. rewrite (handle_decoded _ _ _ _ Hd). simpl.
  destruct (after_Pong_frame W s) as (Hk & _ & Ht & Hrq & _).
  assert (Registered (self (after_Pong W s)) = false) as Hunreg.
  { unfold after_Pong. by rewrite Hup. }
  destruct (String.eqb_spec (protocol.PubResponse_Action r) protocol.AddKite)
    as [-> | _].
  { rewrite AddKite_unregistered by done. eexists. split; [done |].
    rewrite Ht, sends_app. done. }
  destruct (String.eqb_spec (protocol.PubResponse_Action r) protocol.RemoveKite)
    as [-> | _].
  { rewrite RemoveKite_unregistered by done. eexists. split; [done |].
    rewrite Ht, sends_app. done. }
  destruct (String.eqb_spec (protocol.PubResponse_Action r) protocol.UpdateKite)
    as [-> | _].
  { eexists. split; [done |]. simpl. rewrite Ht, sends_app. done. }
  destruct (String.eqb_spec (protocol.PubResponse_Action r) "ping") as [-> | Hn].
  - destruct (InitializeKite_unregistered W _ Hunreg)
      as (s' & Hi & Hk' & _ & rest & Ht' & Hs).
    exists s'. split; [done |]. split; [by rewrite Hk' |]. split; [| done].
    rewrite Ht', Ht, !sends_app, Hs. unfold register_payload.
    rewrite Hrq, Hm. simpl. by rewrite <- app_assoc.
  - eexists. split; [done |]. rewrite Ht, sends_app. done.
Qed.

Lemma X10_pong_answered_UPDATE_witness :
  let W := sample_world "UPDATE" true connected in
  let s := sample_state true balancer.New in
  let r := {| protocol.PubResponse_Base := sample_base "u/fs" "a:9" "x9";
              protocol.PubResponse_Action := "addKite" |} in
  json_Unmarshal_PubResponse W "addKite" = inl r ∧
  Messenger_Send W (trace s) (pong_payload W (self s)) = "UPDATE" ∧
  (json_Marshal W (register_request (self s))).2 = None ∧
  ∃ s',
    handle W "addKite" s = Done (tt, s') ∧
    kites s' = kites s ∧
    sends (trace s') =
      sends (trace s) ++ pong_payload W (self s) ::
        (if String.eqb (protocol.PubResponse_Action r) "ping"
         then [register_payload W (self s)] else []) ∧
    (protocol.PubResponse_Action r ≠ "ping" →
     Registered (self s') = false).
Proof.
  intros W s r.
  assert (json_Unmarshal_PubResponse W "addKite" = inl r) as H1 by reflexivity.
  assert (Messenger_Send W (trace s) (pong_payload W (self s)) = "UPDATE")
    as H2 by reflexivity.
  assert ((json_Marshal W (register_request (self s))).2 = None) as H3
    by reflexivity.
  split_and!; [done.. |].
  apply (X10_pong_answered_UPDATE W "addKite" r s H1 H2 H3).
Defined.

(** X11. A ping handled by a registered node is a heartbeat only: when the
    pong is not answered with UPDATE the handler sends the pong and nothing
    else; no registration request goes out, the server is not started again
    and registry, balancer and node are as before. *)
Theorem X11_ping_while_registered
    (W : World) (msg : bytes) (r : protocol.PubResponse) (s : State) :
  json_Unmarshal_PubResponse W msg = inl r →
  protocol.PubResponse_Action r = "ping" →
  Registered (self s) = true →
  Messenger_Send W (trace s) (pong_payload W (self s)) ≠ "UPDATE" →
  ∃ s',
    handle W msg s = Done (tt, s') ∧
    self s' = self s ∧ kites s' = kites s ∧ balance s' = balance s ∧
    trace s' =
      trace s ++ [EvSend (pong_payload W (self s))
                    (Messenger_Send W (trace s) (pong_payload W (self s)))] ∧
    serves (trace s') = serves (trace s).
Proof.
  intros Hd Ha Hreg Hne.
  rewrite (handle_decoded _ _ _ _ Hd). simpl. rewrite Ha. simpl.
  rewrite (after_Pong_registered W s Hreg Hne).
  rewrite InitializeKite_registered by done.
  eexists. split; [reflexivity |]. simpl. split_and!; try done.
  rewrite serves_append. unfold serves. simpl. lia.
Qed.

Lemma X11_ping_while_registered_witness :
  let W := sample_world "ok" true connected in
  let s := sample_state true balancer.New in
  let r := {| protocol.PubResponse_Base := sample_base "u/fs" "a:9" "x9";
              protocol.PubResponse_Action := "ping" |} in
  json_Unmarshal_PubResponse W "ping" = inl r ∧
  protocol.PubResponse_Action r = "ping" ∧
  Registered (self s) = true ∧
  Messenger_Send W (trace s) (pong_payload W (self s)) ≠ "UPDATE" ∧
  ∃ s',
    handle W "ping" s = Done (tt, s') ∧
    self s' = self s ∧ kites s' = kites s ∧ balance s' = balance s ∧
    trace s' =
      trace s ++ [EvSend (pong_payload W (self s))
                    (Messenger_Send W (trace s) (pong_payload W (self s)))] ∧
    serves (trace s') = serves (trace s).
Proof.
  intros W s r.
  assert (json_Unmarshal_PubResponse W "ping" = inl r) as H1 by reflexivity.
  assert (protocol.PubResponse_Action r = "ping") as H2 by reflexivity.
  assert (Registered (self s) = true) as H3 by reflexivity.
  assert (Messenger_Send W (trace s) (pong_payload W (self s)) ≠ "UPDATE")
    as H4 by (vm_compute; discriminate).
  split_and!; [done.. |].
  apply (X11_ping_while_registered W "ping" r s H1 H2 H3 H4).
Defined.




(** ** The asynchronous call and the registry *)


Lemma getRemoteKite_unknown_group W kite s :
  RemoteKites kite s = Done ([], s) →
  getRemoteKite W kite s =
    Done ((None, Some (fmt_Errorf ("kite " +:+ kite +:+ " does not exist"))), s).
Proof.
  intros HR. unfold getRemoteKite, bind.
  by rewrite (roundRobin_unknown _ _ HR).
Qed.

(** The state after the discovery request went out. *)
Lemma OnceCall_Do_first W msg s :
  OnceCall (self s) = false →
  OnceCall_Do W msg s =
    set_self (set_OnceCall true (self s))
      (record (EvSend msg (Messenger_Send W (trace s) msg)) s).
Proof. intros H. unfold OnceCall_Do. by rewrite H. Qed.

(** While the group has no member, the loop of [Call] only ever asks for
    peers, and once. *)
Lemma Call_run_no_member W kite method args cs s f s' :
  RemoteKites kite s = Done ([], s) →
  st f = Running → callbacks f = [] →
  runCall f = false → resetOnce f = false →
  (s' = s ∨
   OnceCall (self s) = false ∧
   (json_Marshal W (getKites_request (self s) kite)).2 = None ∧
   s' = OnceCall_Do W (getKites_payload W (self s) kite) s) →
  let fs := Call_run W kite method args cs (f, s') in
  st fs.1 = Running ∧ callbacks fs.1 = [] ∧
  (fs.2 = s ∨
   OnceCall (self s) = false ∧
   (json_Marshal W (getKites_request (self s) kite)).2 = None ∧
   fs.2 = OnceCall_Do W (getKites_payload W (self s) kite) s).
Proof.
  intros HR. revert f s'.
  induction cs as [| c cs IH]; intros f s' Hst Hcb Hrc Hro Hs; simpl.
  { done. }
  rewrite Hst.
  destruct c as [| late | race |].
  - destruct (ticker_stopped f); [done |]. by apply IH.
  - destruct (ticker_C f); [| done].
    assert (RemoteKites kite s' = Done ([], s')) as HR'.
    { apply (RemoteKites_same_kites kite s s'); [| done].
      destruct Hs as [-> | (Ho & _ & ->)]; [done |].
      by rewrite OnceCall_Do_first. }
    unfold Call_ticker. rewrite (getRemoteKite_unknown_group W kite s' HR').
    assert (getKites_request (self s') kite = getKites_request (self s) kite)
      as Hrq.
    { destruct Hs as [-> | (Ho & _ & ->)]; [done |].
      by rewrite OnceCall_Do_first. }
    rewrite Hrq. unfold getKites_payload in *.
    destruct (json_Marshal W (getKites_request (self s) kite))
      as [msg [e |]] eqn:Hm; simpl in *.
    + by apply IH.
    + apply IH; try done.
      destruct Hs as [-> | (Ho & _ & ->)].
      * destruct (OnceCall (self s)) eqn:Ho.
        -- left. unfold OnceCall_Do. by rewrite Ho.
        -- by right.
      * right. split_and!; try done.
        rewrite (OnceCall_Do_first W msg s Ho). unfold OnceCall_Do. done.
  - by rewrite Hrc.
  - by rewrite Hro.
Qed.

(** X14. While the registry holds peers but none of the requested group,
    [Call] asks the coordinator for peers at most once and never invokes its
    callback: along every schedule of the loop the call is still running,
    the callback has not fired, registry and balancer are as they were, and
    the trace has grown by nothing or, if [OnceCall] was unused and the
    request encodes, by the one getKites request; the later ticks resolve
    again and send nothing. *)
Theorem X14_discovery_requested_once
    (W : World) (kite method args : string) (cs : list choice) (s : State) :
  RemoteKites kite s = Done ([], s) →
  ∃ f s',
    Call W kite method args cs s = (f, s') ∧
    st f = Running ∧ callbacks f = [] ∧
    kites s' = kites s ∧ balance s' = balance s ∧
    (length (sends (trace s')) ≤ length (sends (trace s)) + 1)%nat ∧
    (trace s' = trace s ∨
     OnceCall (self s) = false ∧
     (json_Marshal W (getKites_request (self s) kite)).2 = None ∧
     trace s' =
       trace s ++
         [EvSend (getKites_payload W (self s) kite)
            (Messenger_Send W (trace s) (getKites_payload W (self s) kite))]).
Proof.
  intros HR.
  destruct (Call_run_no_member W kite method args cs s Call_start s HR)
    as (Hst & Hcb & Hs); try done; [by left |].
  unfold Call.
  destruct (Call_run W kite method args cs (Call_start, s)) as [f s'].
  simpl in *. exists f, s'. split; [done |].
  destruct Hs as [-> | (Ho & Hm & ->)].
  - split_and!; try done; [lia | by left].
  - rewrite (OnceCall_Do_first _ _ _ Ho). simpl.
    split_and!; try done.
    + rewrite sends_app, length_app. simpl. lia.
    + by right.
Qed.

Lemma X14_discovery_requested_once_witness :
  let W := sample_world "" true connected in
  let s := sample_state true balancer.New in
  let cs := [Tick; case_ticker true; case_ticker false; Tick;
             case_ticker false] in
  RemoteKites "u/mail" s = Done ([], s) ∧
  ∃ f s',
    Call W "u/mail" "Send" "x" cs s = (f, s') ∧
    st f = Running ∧ callbacks f = [] ∧
    kites s' = kites s ∧ balance s' = balance s ∧
    (length (sends (trace s')) ≤ length (sends (trace s)) + 1)%nat ∧
    (trace s' = trace s ∨
     OnceCall (self s) = false ∧
     (json_Marshal W (getKites_request (self s) "u/mail")).2 = None ∧
     trace s' =
       trace s ++
         [EvSend (getKites_payload W (self s) "u/mail")
            (Messenger_Send W (trace s)
               (getKites_payload W (self s) "u/mail"))]).
Proof.
  intros W s cs.
  assert (RemoteKites "u/mail" s = Done ([], s)) as H1
    by (vm_compute; reflexivity).
  split; [done |].
  apply (X14_discovery_requested_once W "u/mail" "Send" "x" cs s H1).
Defined.



(** X16. A tick left in the ticker's channel when the ticker is stopped
    undoes a resolved call. After a first resolution that succeeds while a
    tick arrives, the ticker case can be taken once more and resolves
    again: if that resolution succeeds too, the send on the full [runCall]
    channel blocks the loop for good; if it fails, [remoteKite] is nil
    again and the [runCall] case, when taken, panics on it. In neither case
    is the callback invoked. *)
Theorem X16_stale_tick
    (W : World) (kite method args : string) (late : bool) (race : rpc_race)
    (s s1 : State) (r : models.Kite) :
  getRemoteKite W kite s = Done ((Some r, None), s1) →
  let cs := [Tick; case_ticker true; case_ticker late] in
  let fs := Call W kite method args cs s in
  callbacks fs.1 = [] ∧
  match getRemoteKite W kite s1 with
  | Done ((_, None), s2) =>
      st fs.1 = Blocked ∧ fs.2 = s2 ∧
      ∀ c, Call_step W kite method args c fs = None
  | Done ((_, Some _), s2) =>
      st fs.1 = Running ∧ runCall fs.1 = true ∧ remoteKite fs.1 = None ∧
      let fs' := Call W kite method args (cs ++ [case_runCall race]) s in
      st fs'.1 = Crashed "nil pointer dereference" ∧ callbacks fs'.1 = [] ∧
      fs'.2 = fs.2
  | Panicked why => st fs.1 = Crashed why
  end.
Proof.
  intros H1. unfold Call. simpl. unfold Call_ticker. rewrite !H1. simpl.
  unfold Call_ticker.
  destruct (getRemoteKite W kite s1) as [[[r2 [e |]] s2] | why] eqn:H2; simpl.
  - assert (r2 = None) as ->.
    { revert H2. unfold getRemoteKite, bind.
      destruct (roundRobin kite s1) as [[[x [e' |]] s'] | why]; simpl;
        [by intros [= <- _ _] | | done].
      destruct x as [x |]; [| done].
      destruct (models.Client x); [done |].
      destruct (dialClient W x s') as [[[cl [e'' |]] s''] | why]; simpl;
        [by intros [= <- _ _] | done | done]. }
    destruct (json_Marshal W (getKites_request (self s2) kite))
      as [msg [e' |]]; simpl; done.
  - split_and!; done.
  - done.
Qed.

Lemma X16_stale_tick_witness :
  let W := sample_world "" true connected in
  let s := sample_state true balancer.New in
  let fs0 := Call W "u/fs" "Read" "path" [Tick; case_ticker false] s in
  let x := default (sample_peer "u/fs" "a:1" "x1") (remoteKite fs0.1) in
  let s1 := fs0.2 in
  getRemoteKite W "u/fs" s = Done ((Some x, None), s1) ∧
  let cs := [Tick; case_ticker true; case_ticker false] in
  let fs := Call W "u/fs" "Read" "path" cs s in
  callbacks fs.1 = [] ∧
  match getRemoteKite W "u/fs" s1 with
  | Done ((_, None), s2) =>
      st fs.1 = Blocked ∧ fs.2 = s2 ∧
      ∀ c, Call_step W "u/fs" "Read" "path" c fs = None
  | Done ((_, Some _), s2) =>
      st fs.1 = Running ∧ runCall fs.1 = true ∧ remoteKite fs.1 = None ∧
      let fs' := Call W "u/fs" "Read" "path" (cs ++ [case_runCall TimerFirst]) s
      in
      st fs'.1 = Crashed "nil pointer dereference" ∧ callbacks fs'.1 = [] ∧
      fs'.2 = fs.2
  | Panicked why => st fs.1 = Crashed why
  end.
Proof.
  intros W s fs0 x s1.
  assert (getRemoteKite W "u/fs" s = Done ((Some x, None), s1)) as H1
    by (vm_compute; reflexivity).
  split; [done |].
  apply (X16_stale_tick W "u/fs" "Read" "path" false TimerFirst s s1 x H1).
Defined.

(** Where the registry can be listed, a resolution does not panic; it keeps
    the state listable and a peer it returns carries a connection. *)
Lemma getRemoteKite_safe W kite s :
  balance_ok (balance s) → registry_keyed (kites s) → listable s →
  ∃ r err s',
    getRemoteKite W kite s = Done ((r, err), s') ∧
    balance_ok (balance s') ∧ registry_keyed (kites s') ∧ listable s' ∧
    match err with
    | Some _ => r = None
    | None => ∃ x c, r = Some x ∧ models.Client x = Some c
    end.
Proof.
  intros Hok Hkey Hl.
  assert (RemoteKites kite s = Done (group kite (kites s), s)) as HR
    by (by apply RemoteKites_Done).
  destruct (getRemoteKite_post W kite s _ Hok Hkey HR)
    as (r & err & s' & rest & Hg & Hok' & Hkey' & _ & _ & _ & _ & _ & _
        & Hdom & Hres).
  exists r, err, s'. split_and!; try done.
  - unfold listable in *.
    by rewrite peers_List_length, <- size_dom, Hdom, size_dom,
      <- peers_List_length.
  - destruct err as [e |]; [by destruct Hres |].
    destruct Hres as (x & c & -> & Hc & _). by exists x, c.
Qed.

(** Side conditions of the invariant of the loop. *)
Ltac call_side :=
  first
    [ done
    | by left
    | by right
    | by (intros _ [? | ?]; congruence)
    | by (intros _ ?; congruence)
    | by (intros _ ?; eauto) ].

Ltac call_stay := simpl; split_and!; call_side.

(** What holds of the loop of [Call] as long as no tick is left behind: a
    full [runCall] or [resetOnce] channel means the ticker is stopped and
    its channel empty, and the peer to call is there, with a connection. *)
Lemma Call_run_no_late W kite method args cs f s :
  forallb no_late cs = true →
  balance_ok (balance s) → registry_keyed (kites s) → listable s →
  st f = Running ∨ st f = Returned →
  (st f = Running → runCall f = true ∨ resetOnce f = true →
   ticker_C f = false ∧ ticker_stopped f = true) →
  (st f = Running → runCall f = true →
   ∃ x c, remoteKite f = Some x ∧ models.Client x = Some c) →
  let fs := Call_run W kite method args cs (f, s) in
  (st fs.1 = Running ∨ st fs.1 = Returned) ∧
  (st fs.1 = Running → runCall fs.1 = true →
   ∃ x c, remoteKite fs.1 = Some x ∧ models.Client x = Some c) ∧
  balance_ok (balance fs.2) ∧ registry_keyed (kites fs.2) ∧ listable fs.2.
Proof.
  revert f s.
  induction cs as [| c cs IH]; intros f s Hcs Hok Hkey Hl Hst Hfull Hpeer;
    simpl.
  { done. }
  simpl in Hcs. apply andb_prop in Hcs as [Hc Hcs].
  destruct (st f) eqn:Hstf; try (by destruct Hst); [| simpl; by rewrite Hstf].
  specialize (Hfull eq_refl). specialize (Hpeer eq_refl).
  assert (ticker_stopped f = false ∨ ticker_C f = true →
          runCall f = false ∧ resetOnce f = false) as Hempty.
  { intros Hready.
    destruct (runCall f) eqn:Hrc.
    - destruct Hfull as [? ?]; [by left |]. destruct Hready; congruence.
    - destruct (resetOnce f) eqn:Hro; [| done].
      destruct Hfull as [? ?]; [by right |]. destruct Hready; congruence. }
  destruct c as [| late | race |].
  - destruct (ticker_stopped f) eqn:Hts.
    { call_stay. }
    destruct Hempty as [Hrc Hro]; [by left |].
    apply IH; try done; simpl; rewrite ?Hrc, ?Hro; call_side.
  - destruct (ticker_C f) eqn:Htc; [| call_stay].
    destruct Hempty as [Hrc Hro]; [by right |].
    assert (late = false) as -> by (by destruct late).
    destruct (getRemoteKite_safe W kite s Hok Hkey Hl)
      as (r & err & s1 & Hg & Hok1 & Hkey1 & Hl1 & Hres).
    unfold Call_ticker. rewrite Hg, Hrc, Hro. simpl.
    destruct err as [e |].
    + subst r.
      destruct (json_Marshal W (getKites_request (self s1) kite))
        as [msg [e' |]]; apply IH; try done; simpl; rewrite ?Hrc, ?Hro;
        try call_side;
        unfold OnceCall_Do; by destruct (OnceCall (self s1)).
    + apply IH; try done; simpl; call_side.
  - destruct (runCall f) eqn:Hrc; [| call_stay].
    destruct (Hpeer eq_refl) as (x & c & Hx & Hcl).
    unfold Call_runCall. rewrite Hx, Hcl.
    apply IH; try done; simpl; call_side.
  - destruct (resetOnce f) eqn:Hro; [| call_stay].
    destruct Hfull as [Htc Hts]; [by right |].
    apply IH; try done; simpl; rewrite ?Htc, ?Hts; call_side.
Qed.

(** X17. If no tick is left in the ticker's channel while a resolution
    runs, [Call] neither panics nor blocks: on a node whose registry can be
    listed (it holds a peer, and not more than a slice takes) and whose
    balancer indices are in bounds, along every such schedule the call is
    either still running or has returned, and whenever the [runCall] case
    is ready it finds the resolved peer with its connection. The registry
    stays listable and keyed by address and the balancer in bounds. *)
Theorem X17_Call_safe_without_stale_tick
    (W : World) (kite method args : string) (cs : list choice) (s : State) :
  balance_ok (balance s) → registry_keyed (kites s) → listable s →
  forallb no_late cs = true →
  let fs := Call W kite method args cs s in
  (st fs.1 = Running ∨ st fs.1 = Returned) ∧
  (st fs.1 = Running → runCall fs.1 = true →
   ∃ x c, remoteKite fs.1 = Some x ∧ models.Client x = Some c) ∧
  balance_ok (balance fs.2) ∧ registry_keyed (kites fs.2) ∧ listable fs.2.
Proof.
  intros Hok Hkey Hl Hcs. unfold Call.
  apply Call_run_no_late; try done; simpl; [by left | by intros _ [? | ?]].
Qed.

Lemma X17_Call_safe_without_stale_tick_witness :
  let W := sample_world "" true connected in
  let s := sample_state true balancer.New in
  let cs := [Tick; case_ticker false; case_resetOnce;
             case_runCall TimerFirst] in
  balance_ok (balance s) ∧ registry_keyed (kites s) ∧ listable s ∧
  forallb no_late cs = true ∧
  let fs := Call W "u/fs" "Read" "path" cs s in
  (st fs.1 = Running ∨ st fs.1 = Returned) ∧
  (st fs.1 = Running → runCall fs.1 = true →
   ∃ x c, remoteKite fs.1 = Some x ∧ models.Client x = Some c) ∧
  balance_ok (balance fs.2) ∧ registry_keyed (kites fs.2) ∧ listable fs.2.
Proof.
  intros W s cs.
  assert (balance_ok (balance s)) as H1 by apply balance_ok_empty.
  assert (registry_keyed (kites s)) as H2 by apply sample_registry_keyed.
  assert (listable s) as H3 by (vm_compute; split; [done | discriminate]).
  assert (forallb no_late cs = true) as H4 by reflexivity.
  split_and!; [done.. |].
  apply (X17_Call_safe_without_stale_tick W "u/fs" "Read" "path" cs s
           H1 H2 H3 H4).
Defined.

(** ** The listener *)

(** Membership in the short lists [ServeHTTP] returns. *)
Ltac serve_side :=
  rewrite ?elem_of_cons, ?elem_of_nil in *;
  repeat match goal with
         | H : _ ∨ _ |- _ => destruct H
         | H : _ ∧ _ |- _ => destruct H
         | H : False |- _ => destruct H
         | |- _ ↔ _ => split; intros
         | |- _ ∧ _ => split
         end;
  simplify_eq; try done; try tauto; eauto 6.

(** X18. [ServeHTTP] selects the codec of a connection by the request alone,
    and serves at most one. The kite codec is served exactly on the hijacked
    connection of a CONNECT request off the websocket path, and then right
    after the line with status [connected] was written to that connection;
    the dnode codec exactly on the upgraded connection of a request to the
    websocket path, after the client was added; status 405 is answered
    exactly to a request off the websocket path whose method is not CONNECT,
    and such a request is never hijacked and served no codec. *)
Theorem X18_ServeHTTP_codec_selection
    (WEBSOCKET_PATH : string) (r : http_Request) (upgrade : option Conn)
    (hijack : Conn + error) :
  let out := ServeHTTP WEBSOCKET_PATH r upgrade hijack in
  (∀ conn, SvServeCodec (NewKiteServerCodec conn) ∈ out ↔
           URL_Path r ≠ WEBSOCKET_PATH ∧ Method r = "CONNECT" ∧
           hijack = inl conn) ∧
  (∀ conn, SvServeCodec (NewKiteServerCodec conn) ∈ out →
           out = [SvHijack (inl conn);
                  SvWrite conn ("HTTP/1.0 " +:+ connected +:+ LF +:+ LF);
                  SvServeCodec (NewKiteServerCodec conn)]) ∧
  (∀ ws, SvServeCodec (NewDnodeServerCodec ws) ∈ out ↔
         URL_Path r = WEBSOCKET_PATH ∧ upgrade = Some ws) ∧
  (∀ ws, SvServeCodec (NewDnodeServerCodec ws) ∈ out →
         out = [SvClientsAdd ws (RemoteAddr r);
                SvServeCodec (NewDnodeServerCodec ws)]) ∧
  (SvWriteHeader http_StatusMethodNotAllowed ∈ out ↔
   URL_Path r ≠ WEBSOCKET_PATH ∧ Method r ≠ "CONNECT") ∧
  (SvWriteHeader http_StatusMethodNotAllowed ∈ out →
   ∀ e, e ∈ out → match e with
                  | SvHijack _ | SvServeCodec _ | SvWrite _ _ => False
                  | _ => True
                  end).
Proof.
  unfold ServeHTTP, serveWS. simpl.
  destruct (String.eqb_spec (URL_Path r) WEBSOCKET_PATH) as [Hp | Hp].
  - destruct upgrade as [ws |]; split_and!; intros; serve_side.
  - destruct (String.eqb_spec (Method r) "CONNECT") as [Hm | Hm]; simpl.
    + destruct hijack as [conn | e]; split_and!; intros; serve_side.
    + split_and!; intros; serve_side.
Qed.

(** ** A new node *)



(** ** Broadcasts and later resolutions *)

Lemma roundRobin_member kite s x err s' :
  roundRobin kite s = Done ((Some x, err), s') →
  kites s' = kites s ∧ trace s' = trace s ∧ self s' = self s ∧
  models.Kitename x = kite ∧ ∃ addr, kites s !! addr = Some x.
Proof.
  intros Hrr. unfold roundRobin, bind in Hrr.
  destruct (RemoteKites kite s) as [[l s0] | why] eqn:HR; [| done].
  apply RemoteKites_Done in HR as (-> & -> & Hlen).
  destruct (Z.eqb_spec (Z.of_nat (length (group kite (kites s)))) 0);
    [by inversion Hrr |].
  unfold get, modify, slice_index, ret, panic in Hrr. simpl in Hrr.
  destruct (_ <? 0); [done |].
  destruct (group kite (kites s) !! _) as [x' |] eqn:Hx; [| done].
  inversion Hrr; subst. simpl. split_and!; try done.
  - apply list_elem_of_lookup_2 in Hx. by apply group_elem in Hx as (? & _).
  - apply list_elem_of_lookup_2 in Hx. by apply group_elem in Hx as (_ & ?).
Qed.

(** A dial starts with the connection attempt to the peer's address. *)
Lemma dialClient_first_event W kite s client err s' :
  dialClient W kite s = Done ((client, err), s') →
  kites s' = kites s ∧
  (err = None → client ≠ None) ∧
  ∃ res rest, trace s' = trace s ++ EvDial (models.Addr kite) res :: rest.
Proof.
  pose proof (dialClient_cases W kite s) as H. simpl in H.
  destruct (net_Dial W (trace s) (models.Addr kite)) as [conn | e].
  - destruct (http_ReadResponse W _ conn) as [resp | e].
    + destruct (String.eqb (Status resp) connected);
        rewrite H; intros [= <- <- <-]; simpl; rewrite <- ?app_assoc; simpl;
        split_and!; try done; by eexists _, _.
    + rewrite H; intros [= <- <- <-]; simpl; rewrite <- ?app_assoc; simpl;
        split_and!; try done; by eexists _, _.
  - rewrite H; intros [= <- <- <-]; simpl. split_and!; try done.
    by eexists _, [].
Qed.

(** Where a resolved peer comes from: it is an entry of the registry, as it
    is if the entry has a connection, and with the connection of a dial
    made now if it has none. *)
Lemma getRemoteKite_resolved W kite s x err s' :
  getRemoteKite W kite s = Done ((Some x, err), s') →
  ∃ x0 addr,
    kites s !! addr = Some x0 ∧ models.Kitename x0 = kite ∧
    models.Base x = models.Base x0 ∧
    match models.Client x0 with
    | Some _ => x = x0 ∧ trace s' = trace s
    | None =>
        models.Client x ≠ None ∧
        ∃ res rest, trace s' = trace s ++ EvDial (models.Addr x0) res :: rest
    end.
Proof.
  unfold getRemoteKite, bind.
  destruct (roundRobin kite s) as [[[r [e |]] s1] | why] eqn:Hrr; simpl;
    [done | | done].
  destruct r as [x0 |]; [| done].
  destruct (roundRobin_member _ _ _ _ _ Hrr) as (Hk & Ht & _ & Hn & a & Ha).
  destruct (models.Client x0) as [c |] eqn:Hc.
  - intros [= <- <- <-]. exists x0, a. by rewrite Hc.
  - destruct (dialClient W x0 s1) as [[[client [e |]] s2] | why] eqn:Hd;
      simpl; [done | | done].
    intros [= <- <- <-].
    destruct (dialClient_first_event _ _ _ _ _ _ Hd)
      as (_ & Hcl & res & rest & Ht2).
    exists x0, a. rewrite Hc. simpl. split_and!; try done.
    + by apply Hcl.
    + exists res, rest. by rewrite Ht2, Ht.
Qed.

(** X20. A removed peer is not resolved again. Once a registered node has
    run [RemoveKite] for a unique id, no resolution, for whatever group,
    returns a peer with that id: the peer a resolution returns is one of
    the entries the removal kept, with the connection it has or was just
    given. *)
Theorem X20_removed_peer_not_resolved
    (W : World) (r : protocol.PubResponse) (kite : string) (s : State) :
  Registered (self s) = true →
  let id := protocol.Uuid (protocol.PubResponse_Base r) in
  ∃ s1,
    RemoveKite r s = Done (tt, s1) ∧
    ∀ x err s2,
      getRemoteKite W kite s1 = Done ((Some x, err), s2) →
      models.Uuid x ≠ id ∧
      ∃ x0 addr, kites s !! addr = Some x0 ∧ models.Uuid x0 ≠ id ∧
                 models.Base x = models.Base x0.
Proof.
  intros Hreg id. rewrite RemoveKite_registered by done.
  eexists. split; [reflexivity |].
  intros x err s2 Hg.
  destruct (getRemoteKite_resolved _ _ _ _ _ _ Hg)
    as (x0 & a & Ha & _ & Hb & _).
  simpl in Ha. unfold peers.Remove in Ha.
  apply map_lookup_filter_Some in Ha as [Ha Hid]. simpl in Hid.
  split.
  - unfold models.Uuid in *. by rewrite Hb.
  - by exists x0, a.
Qed.

Lemma X20_removed_peer_not_resolved_witness :
  let W := sample_world "" true connected in
  let s := sample_state true balancer.New in
  let r := {| protocol.PubResponse_Base := sample_base "u/fs" "a:1" "x1";
              protocol.PubResponse_Action := "removeKite" |} in
  Registered (self s) = true ∧
  ∃ s1,
    RemoveKite r s = Done (tt, s1) ∧
    ∀ x err s2,
      getRemoteKite W "u/fs" s1 = Done ((Some x, err), s2) →
      models.Uuid x ≠ protocol.Uuid (protocol.PubResponse_Base r) ∧
      ∃ x0 addr, kites s !! addr = Some x0 ∧
                 models.Uuid x0 ≠ protocol.Uuid (protocol.PubResponse_Base r) ∧
                 models.Base x = models.Base x0.
Proof.
  intros W s r.
  assert (Registered (self s) = true) as H1 by reflexivity.
  split; [done |].
  apply (X20_removed_peer_not_resolved W r "u/fs" s H1).
Defined.



(** ** Where registry entries come from *)

Lemma handle_provenance W msg s s' :
  handle W msg s = Done (tt, s') →
  ∀ addr x, kites s' !! addr = Some x →
    kites s !! addr = Some x ∨
    ∃ r, json_Unmarshal_PubResponse W msg = inl r ∧
         protocol.PubResponse_Action r = protocol.AddKite ∧
         x = broadcast_peer r ∧ addr = models.Addr x.
Proof.
  destruct (json_Unmarshal_PubResponse W msg) as [r | e] eqn:Hd.
  2: { rewrite (handle_undecoded _ _ _ _ Hd). intros [= <-]. by left. }
  rewrite (handle_decoded _ _ _ _ Hd). simpl.
  destruct (after_Pong_frame W s) as (Hk & _).
  set (sp := after_Pong W s) in *.
  destruct (String.eqb_spec (protocol.PubResponse_Action r) protocol.AddKite)
    as [Ha | _].
  { unfold AddKite, SetPeers, bind, get, modify, ret. simpl.
    destruct (Registered (self sp)); simpl; intros [= <-]; simpl;
      intros addr x; [| rewrite Hk; by left].
    unfold peers.Add. rewrite lookup_insert. case_decide as Heq.
    - intros [= <-]. right. by exists r.
    - rewrite Hk. by left. }
  destruct (String.eqb_spec (protocol.PubResponse_Action r) protocol.RemoveKite)
    as [Ha | _].
  { unfold RemoveKite, bind, get, modify, ret. simpl.
    destruct (Registered (self sp)); simpl; intros [= <-]; simpl;
      intros addr x; [| rewrite Hk; by left].
    unfold peers.Remove. rewrite map_lookup_filter_Some, Hk.
    intros [? _]. by left. }
  destruct (String.eqb (protocol.PubResponse_Action r) protocol.UpdateKite).
  { intros [= <-]. simpl. intros addr x. rewrite Hk. by left. }
  destruct (String.eqb (protocol.PubResponse_Action r) "ping").
  - destruct (InitializeKite_post W sp) as (s1 & rest & Hi & Hk1 & _).
    rewrite Hi. intros [= <-]. intros addr x. rewrite Hk1, Hk. by left.
  - intros [= <-]. intros addr x. rewrite Hk. by left.
Qed.

(** X22. The broadcast loop never invents a peer and never attaches a
    connection: every entry the registry holds after [Start] was either
    there before, unchanged and under the same address, or is the peer
    announced by one of the addKite broadcasts that were handled, stored
    under its own address and without a connection. *)
Theorem X22_registry_provenance
    (W : World) (msgs : list bytes) (s s' : State) :
  Start W msgs s = Done (tt, s') →
  ∀ addr x, kites s' !! addr = Some x →
    kites s !! addr = Some x ∨
    ∃ msg r, msg ∈ msgs ∧
             json_Unmarshal_PubResponse W msg = inl r ∧
             protocol.PubResponse_Action r = protocol.AddKite ∧
             x = broadcast_peer r ∧ addr = models.Addr x ∧
             models.Client x = None.
Proof.
  unfold Start. unfold bind at 1, get at 1.
  destruct (KontrolEnabled (self s)); simpl.
  2: { unfold serve, bind, get, modify, ret. simpl. intros [= <-]. simpl.
       intros addr x Hx. by left. }
  revert s. induction msgs as [| msg msgs IH]; intros s; simpl.
  { intros [= <-] addr x Hx. by left. }
  unfold bind.
  destruct (handle W msg s) as [[[] s1] | why] eqn:Hh; [| done].
  intros HC addr x Hx.
  destruct (IH s1 HC addr x Hx) as [H1 | (m & r & Hm & Hd & Ha & -> & -> & Hc)].
  - destruct (handle_provenance W msg s s1 Hh addr x H1)
      as [? | (r & Hd & Ha & -> & ->)]; [by left |].
    right. exists msg, r. split_and!; try done. apply list_elem_of_here.
  - right. exists m, r. split_and!; try done. by apply list_elem_of_further.
Qed.

Lemma X22_registry_provenance_witness :
  let W := sample_world "allow" true connected in
  let s := sample_empty_state false in
  let msgs := ["ping"; "addKite"; ""; "removeKite"; "addKite"] in
  let s' := match Start W msgs s with
            | Done (_, s') => s'
            | Panicked _ => s
            end in
  Start W msgs s = Done (tt, s') ∧
  ∀ addr x, kites s' !! addr = Some x →
    kites s !! addr = Some x ∨
    ∃ msg r, msg ∈ msgs ∧
             json_Unmarshal_PubResponse W msg = inl r ∧
             protocol.PubResponse_Action r = protocol.AddKite ∧
             x = broadcast_peer r ∧ addr = models.Addr x ∧
             models.Client x = None.
Proof.
  intros W s msgs s'.
  assert (Start W msgs s = Done (tt, s')) as H1 by (vm_compute; reflexivity).
  split; [done |].
  apply (X22_registry_provenance W msgs s s' H1).
Defined.
